(** * Azure MySQL + AI Search sample notebook: a shallow embedding

    The repository is one notebook,
    [AzureMySQL_AISearch_IntegratedVectorization.ipynb].  Its own code is

    - the DDL of table [foodreview] (cell 12), written in SQL;
    - the ingestion loader (cells 15-19): the derived [TextConcat] column,
      the split of the dataframe into batches of 30 and one [executemany]
      per batch;
    - the configuration objects handed to Azure AI Search (cells 26-33);
    - the query cell (cell 40) and the chat-completion cell (cell 45).

    Chunking, embedding, index projection, change tracking and ranking are
    performed by the managed services; the notebook only configures them.
    The services therefore appear below as parameters of the cells that
    call them, never as definitions. *)

From Stdlib Require Import Ascii.
From stdpp Require Import gmap strings list pretty.

Open Scope Z_scope.

(** ** Python values that occur in the notebook *)

Module Py.

(** A value of a dataframe cell as [pd.read_csv] delivers it: an integer,
    a string, NaN for a missing field, a float other than NaN, or a
    boolean.  The notebook only formats floats and passes them on, so a
    float is carried by the text that [repr] gives it (["4.0"],
    ["1e+16"]).  The parser puts an integer only in a column of integers:
    next to a float or a missing value the column holds floats. *)
Inductive pyval :=
| PInt (z : Z)
| PStr (s : string)
| PNaN
| PFloat (repr : string)
| PBool (b : bool).

Global Instance pyval_eq_dec : EqDecision pyval.
Proof. solve_decision. Defined.

(** [format(v, "")], what an f-string replacement field [{v}] produces. *)
Definition py_format (v : pyval) : string :=
  match v with
  | PInt z => pretty z
  | PStr s => s
  | PNaN => "nan"
  | PFloat repr => repr
  | PBool b => if b then "True" else "False"
  end.

(** *** An integer cast to [float64], and its [repr]

    A row of an all-numeric frame reaches the lambda of cell 17 as a
    [float64] Series, so an integer is cast before it is formatted. *)

(** The [float64] nearest to an integer, ties to the even mantissa. *)
Definition nearest_float (z : Z) : Z :=
  let a := Z.abs z in
  let e := Z.log2 a - 52 in
  if e <=? 0 then z
  else
    let q := a / 2 ^ e in
    let rem := a mod 2 ^ e in
    let half := 2 ^ (e - 1) in
    let q' := if (half <? rem) || ((rem =? half) && Z.odd q) then q + 1 else q in
    Z.sgn z * (q' * 2 ^ e).

(** Rounding up a digit string whose last digit was a nine: the nines at
    the end go, the digit before them grows by one; a string of nines
    alone becomes a one, one place further left (the flag). *)
Fixpoint roundoff (rev_digits : list Z) : list Z * bool :=
  match rev_digits with
  | [] => ([1], true)
  | d :: rest => if d =? 9 then roundoff rest else (d + 1 :: rest, false)
  end.

(** The shortest digit string that reads back as the float [x]: the
    digit loop of the conversion that [repr] uses.  [R / S] is the part of
    [x] still to be written, [mlo] and [mhi] are half the distance to the
    float below and above; [acc] holds the digits so far, last one first. *)
Fixpoint shortest_digits (fuel : nat) (even : bool) (S R mlo mhi : Z) (acc : list Z)
  : list Z * bool :=
  match fuel with
  | O => (acc, false)
  | Datatypes.S fuel' =>
      let dig := R / S in
      let b := R mod S in
      let low := (b <? mlo) || ((b =? mlo) && even) in
      let high := S - mhi <? b in
      if (b =? S - mhi) && even then
        if dig =? 9 then roundoff (9 :: acc)
        else ((if mlo <? b then dig + 1 else dig) :: acc, false)
      else if low then
        if b =? 0 then (dig :: acc, false)
        else if high && ((S <? 2 * b) || ((2 * b =? S) && Z.odd dig)) then
          if dig =? 9 then roundoff (9 :: acc) else (dig + 1 :: acc, false)
        else (dig :: acc, false)
      else if high then
        if dig =? 9 then roundoff (9 :: acc) else (dig + 1 :: acc, false)
      else shortest_digits fuel' even S (10 * b) (10 * mlo) (10 * mhi) (dig :: acc)
  end.

(** The number of decimal digits of a positive integer. *)
Definition decimal_length (x : Z) : Z := Z.of_nat (String.length (pretty x)).

Definition digits_string (ds : list Z) : string :=
  String.concat "" (pretty <$> ds).

(** [repr] of a positive float with an integer value [x]: its digits and
    the place of the decimal point; plain notation up to sixteen places,
    with [.0] added, and exponent notation beyond. *)
Definition repr_of_float_integer (x : Z) : string :=
  if x <=? 2 ^ 53 then pretty x +:+ ".0"
  else
    let e := Z.log2 x - 52 in
    let q := x / 2 ^ e in
    let p := decimal_length x in
    let power_of_two := q =? 2 ^ 52 in
    let '(rev_digits, carry) :=
      if power_of_two
      then shortest_digits 40 (Z.even q) (2 * 10 ^ (p - 1)) (2 * x)
             (2 ^ (e - 1)) (2 ^ e) []
      else shortest_digits 40 (Z.even q) (10 ^ (p - 1)) x
             (2 ^ (e - 1)) (2 ^ (e - 1)) [] in
    let digits := reverse rev_digits in
    let decpt := if carry then p + 1 else p in
    if decpt <=? 16
    then digits_string digits
           +:+ digits_string (replicate (Z.to_nat (decpt - Z.of_nat (length digits))) 0)
           +:+ ".0"
    else
      match digits with
      | [] => ""
      | [d] => pretty d +:+ "e+" +:+ pretty (decpt - 1)
      | d :: rest =>
          pretty d +:+ "." +:+ digits_string rest +:+ "e+" +:+ pretty (decpt - 1)
      end.

(** [repr(float(z))] for an integer [z]. *)
Definition float_repr (z : Z) : string :=
  let x := nearest_float z in
  if x <? 0 then "-" +:+ repr_of_float_integer (- x) else repr_of_float_integer x.

(** A raised exception: its class name and its message. *)
Record pyexn := PyExn { exc_type : string; exc_msg : string }.

Global Instance pyexn_eq_dec : EqDecision pyexn.
Proof. solve_decision. Defined.

(** [range(start, stop, step)] for [start <= stop] and a positive step. *)
Definition py_range (start stop step : nat) : list nat :=
  (λ k, start + k * step)%nat <$> seq 0 ((stop - start + (step - 1)) / step)%nat.

(** The slice [l[i:j]]; indices past the end are clipped, as in Python. *)
Definition py_slice {A} (l : list A) (i j : nat) : list A :=
  take (j - i) (drop i l).

End Py.

Export Py.

(** ** Cells as computations

    A cell runs over some state (standard output, a database handle) and
    either finishes or raises.  The state that an aborted cell leaves
    behind is kept: output already printed stays printed, statements
    already committed stay committed ([autocommit=True], cell 10). *)

Module Cell.

Definition M (S A : Type) : Type := S → (pyexn + A) * S.

Definition ret {S A} (a : A) : M S A := λ s, (inr a, s).

Definition raise {S A} (e : pyexn) : M S A := λ s, (inl e, s).

Definition bind {S A B} (m : M S A) (k : A → M S B) : M S B :=
  λ s, match m s with
       | (inl e, s') => (inl e, s')
       | (inr a, s') => k a s'
       end.

Definition modify {S} (f : S → S) : M S unit := λ s, (inr tt, f s).

(** [for x in xs: body(x)]: the first exception leaves the loop. *)
Fixpoint for_each {S A} (xs : list A) (body : A → M S unit) : M S unit :=
  match xs with
  | [] => ret tt
  | x :: xs' => bind (body x) (λ _, for_each xs' body)
  end.

(** The exception a run ended with, if any. *)
Definition raised {S A} (r : (pyexn + A) * S) : option pyexn :=
  match r.1 with inl e => Some e | inr _ => None end.

End Cell.

Global Instance cell_ret {S} : MRet (Cell.M S) := λ A, Cell.ret.
Global Instance cell_bind {S} : MBind (Cell.M S) := λ A B k m, Cell.bind m k.

(** ** Cells 15-19: the ingestion loader *)

Module Ingestion.

(** One row of [Reviews_small.csv] as read by [pd.read_csv] (cell 15); the
    ten columns are those the [INSERT] of cell 19 names before
    [TextConcat], in that order. *)
Record Review := {
  Id : pyval;
  ProductId : pyval;
  UserId : pyval;
  ProfileName : pyval;
  HelpfulnessNumerator : pyval;
  HelpfulnessDenominator : pyval;
  Score : pyval;
  Time : pyval;
  Summary : pyval;
  Text : pyval
}.

(** Cell 17, the lambda:
    [f"Summary: {row['Summary']} | Review: {row['Text']}"], applied to a
    row as [df_all.apply(..., axis=1)] hands it over. *)
Definition text_concat (row : Review) : string :=
  "Summary: " +:+ py_format (Summary row) +:+ " | Review: " +:+ py_format (Text row).

(** A dataframe row after cell 17: the CSV columns and the new column. *)
Record Row := { review : Review; TextConcat : string }.

(** The dtype [pd.read_csv] gives a column, and the common dtype of a
    frame. *)
Inductive dtype := Int64 | UInt64 | Float64 | Bool | Object.

Global Instance dtype_eq_dec : EqDecision dtype.
Proof. solve_decision. Defined.

Definition is_bool (v : pyval) : bool :=
  match v with PBool _ => true | _ => false end.

Definition is_int (v : pyval) : bool :=
  match v with PInt _ => true | _ => false end.

Definition is_int64 (v : pyval) : bool :=
  match v with PInt z => (- 2 ^ 63 <=? z) && (z <? 2 ^ 63) | _ => false end.

Definition is_uint64 (v : pyval) : bool :=
  match v with PInt z => (0 <=? z) && (z <? 2 ^ 64) | _ => false end.

Definition is_numeric (v : pyval) : bool :=
  match v with PInt _ | PFloat _ | PNaN => true | _ => false end.

(** A column of integers is [int64], or [uint64] when some value needs
    it; a numeric column with a float or a missing value is [float64];
    booleans alone are [bool]; everything else is an object column (so is
    a column of integers that fit neither integer type, which the parser
    leaves as it read them). *)
Definition column_dtype (col : list pyval) : dtype :=
  if forallb is_bool col then Bool
  else if forallb is_int64 col then Int64
  else if forallb is_uint64 col then UInt64
  else if forallb is_int col then Object
  else if forallb is_numeric col then Float64
  else Object.

(** The ten columns of a frame. *)
Definition columns (df : list Review) : list (list pyval) :=
  [ Id <$> df; ProductId <$> df; UserId <$> df; ProfileName <$> df;
    HelpfulnessNumerator <$> df; HelpfulnessDenominator <$> df; Score <$> df;
    Time <$> df; Summary <$> df; Text <$> df ].

(** The dtype of [df.values]: the columns' own when they all agree,
    [float64] for any other mix of numeric columns ([int64] next to
    [uint64] included), and object otherwise. *)
Definition common_dtype (ds : list dtype) : dtype :=
  match ds with
  | [] => Object
  | d :: rest =>
      if forallb (λ d', bool_decide (d' = d)) rest then d
      else if forallb (λ d', bool_decide (d' ∈ [Int64; UInt64; Float64])) ds
      then Float64
      else Object
  end.

(** [df.apply(f, axis=1)] builds each row as a Series of the frame's common
    dtype; only [float64] changes what a cell looks like, the other dtypes
    hold the cells as they are. *)
Definition float_frame (df : list Review) : bool :=
  bool_decide (common_dtype (column_dtype <$> columns df) = Float64).

(** A cell as the row Series holds it: in a [float64] frame an integer has
    become the nearest float. *)
Definition series_value (df : list Review) (v : pyval) : pyval :=
  if float_frame df
  then match v with PInt z => PFloat (float_repr z) | _ => v end
  else v.

Definition series_row (df : list Review) (r : Review) : Review :=
  {| Id := series_value df (Id r);
     ProductId := series_value df (ProductId r);
     UserId := series_value df (UserId r);
     ProfileName := series_value df (ProfileName r);
     HelpfulnessNumerator := series_value df (HelpfulnessNumerator r);
     HelpfulnessDenominator := series_value df (HelpfulnessDenominator r);
     Score := series_value df (Score r);
     Time := series_value df (Time r);
     Summary := series_value df (Summary r);
     Text := series_value df (Text r) |}.

(** Cell 17: [df_all["TextConcat"] = df_all.apply(lambda row: ..., axis=1)].
    The frame keeps its own cells; only the new column is computed from
    the row Series. *)
Definition add_text_concat (df : list Review) : list Row :=
  (λ r, {| review := r; TextConcat := text_concat (series_row df r) |}) <$> df.

Definition batch_size : nat := 30.

(** Cell 19:
    [[df_all[i:i + batch_size] for i in range(0, len(df_all), batch_size)]]. *)
Definition batches {A} (df : list A) : list (list A) :=
  (λ i, py_slice df i (i + batch_size)) <$> py_range 0 (length df) batch_size.

(** [tuple(row)] for a row of [batch.itertuples(index=False)]: the column
    values in column order. *)
Definition row_tuple (r : Row) : list pyval :=
  [ Id (review r); ProductId (review r); UserId (review r);
    ProfileName (review r); HelpfulnessNumerator (review r);
    HelpfulnessDenominator (review r); Score (review r); Time (review r);
    Summary (review r); Text (review r); PStr (TextConcat r) ].

Definition table_name : string := "foodreview".

(** The column list of the [INSERT] statement of cell 19. *)
Definition insert_columns : list string :=
  [ "Id"; "ProductId"; "UserId"; "ProfileName"; "HelpfulnessNumerator";
    "HelpfulnessDenominator"; "Score"; "Time"; "Summary"; "Text";
    "TextConcat" ].

Section Upload.

(** The database behind [cursor]: its state, and what
    [cursor.executemany(query, rows)] does to it. *)
Context {DB : Type}.
Variable executemany : list string → list (list pyval) → DB → pyexn + DB.

(** The state of the upload loop: the database, and the parameter tuples
    handed to the connector so far. *)
Record upload_state := { db : DB; sent : list (list pyval) }.

Definition execute_batch (batch : list Row) : Cell.M upload_state unit :=
  λ st,
    let rows := row_tuple <$> batch in
    let st' := {| db := db st; sent := sent st ++ rows |} in
    match executemany insert_columns rows (db st) with
    | inl e => (inl e, st')
    | inr db' => (inr tt, {| db := db'; sent := sent st' |})
    end.

(** Cells 17 and 19 together. *)
Definition upload (df_all : list Review) : Cell.M upload_state unit :=
  Cell.for_each (batches (add_text_concat df_all)) execute_batch.

End Upload.

End Ingestion.

(** ** Cell 12: the table [foodreview]

    The statement is SQL; it is embedded as the list of its column
    definitions, and rows of the table evolve by MySQL's rules for those
    definitions: a column without a value gets its [DEFAULT], and a column
    declared [ON UPDATE CURRENT_TIMESTAMP] is set to the statement's
    [CURRENT_TIMESTAMP] when an [UPDATE] changes the value of some other
    column of the row and does not assign the column itself.  The model
    covers statements whose values have the declared type of their
    column, which the server stores as given. *)

Module MySQL.

Inductive sql_type := INTEGER | BIGINT | TEXT | DATETIME.

Inductive sql_default :=
| NoDefault
| DefaultInt (z : Z)
| DefaultCurrentTimestamp.

Global Instance sql_default_eq_dec : EqDecision sql_default.
Proof. solve_decision. Defined.

Record column := Column {
  col_name : string;
  col_type : sql_type;
  col_not_null : bool;
  col_default : sql_default;
  col_on_update_current_timestamp : bool
}.

(** The column definitions of [CREATE TABLE foodreview], in order. *)
Definition foodreview : list column :=
  [ Column "Id" INTEGER true NoDefault false;
    Column "ProductId" TEXT false NoDefault false;
    Column "UserId" TEXT false NoDefault false;
    Column "ProfileName" TEXT false NoDefault false;
    Column "HelpfulnessNumerator" INTEGER false NoDefault false;
    Column "HelpfulnessDenominator" INTEGER false NoDefault false;
    Column "Score" INTEGER false NoDefault false;
    Column "Time" BIGINT false NoDefault false;
    Column "Summary" TEXT false NoDefault false;
    Column "Text" TEXT false NoDefault false;
    Column "TextConcat" TEXT false NoDefault false;
    Column "Created" DATETIME false DefaultCurrentTimestamp false;
    Column "LastUpdated" DATETIME false DefaultCurrentTimestamp true;
    Column "Deleted" INTEGER false (DefaultInt 0) false ].

(** [PRIMARY KEY (Id)]. *)
Definition primary_key : string := "Id".

Definition server_change_detection_column_name : string := "LastUpdated".
Definition server_soft_delete_column_name : string := "Deleted".
Definition server_soft_delete_marker_value : string := "1".

(** A stored value.  [DATETIME] is declared without fractional seconds, so
    a timestamp is a whole number of seconds. *)
Inductive value :=
| NULL
| VInt (z : Z)
| VText (s : string)
| VDatetime (seconds : Z).

Global Instance value_eq_dec : EqDecision value.
Proof. solve_decision. Defined.

(** A row maps every column name to its value; the table maps the value of
    the primary key to the row that carries it. *)
Abbreviation row := (gmap string value).
Abbreviation table := (gmap Z (gmap string value)).

Definition column_names : list string := col_name <$> foodreview.

(** The value a column takes when an [INSERT] gives none; [now] is the
    statement's [CURRENT_TIMESTAMP]. *)
Definition default_value (now : Z) (c : column) : value :=
  match col_default c with
  | NoDefault => NULL
  | DefaultInt z => VInt z
  | DefaultCurrentTimestamp => VDatetime now
  end.

(** The row that [INSERT INTO foodreview (cols) VALUES (vals)] builds. *)
Definition new_row (now : Z) (given : list (string * value)) : row :=
  list_to_map
    ((λ c, (col_name c,
            default (default_value now c) (list_to_map (M := row) given !! col_name c)))
       <$> foodreview).

(** The [SET] clauses of an [UPDATE], applied from left to right. *)
Definition assign (sets : list (string * value)) (r : row) : row :=
  foldl (λ acc cv, <[cv.1 := cv.2]> acc) r sets.

(** Does the value of some column other than [c] differ between [r] and [r']? *)
Definition other_column_changed (c : string) (r r' : row) : bool :=
  existsb (λ c', bool_decide (c' ≠ c) && bool_decide (r' !! c' ≠ r !! c'))
          column_names.

(** One row under [UPDATE foodreview SET sets], executed when
    [CURRENT_TIMESTAMP] reads [now]. *)
Definition update_row (now : Z) (sets : list (string * value)) (r : row) : row :=
  let r1 := assign sets r in
  foldl (λ acc c,
           if col_on_update_current_timestamp c
              && negb (bool_decide (col_name c ∈ sets.*1))
              && other_column_changed (col_name c) r r1
           then <[col_name c := VDatetime now]> acc
           else acc)
        r1 foodreview.

(** The connector's exception classes for the server errors that the two
    statements below can meet (strict SQL mode, the server default). *)
Definition integrity_error (msg : string) : pyexn := PyExn "IntegrityError" msg.
Definition programming_error (msg : string) : pyexn := PyExn "ProgrammingError" msg.
Definition database_error (msg : string) : pyexn := PyExn "DatabaseError" msg.
Definition data_error (msg : string) : pyexn := PyExn "DataError" msg.

(** How a value sits with the declared type of a column: a value of the
    column's own type within its range is stored as given; one of that
    type outside the range is refused; a value of another type would be
    converted by the server, and conversions are outside this model
    (the third case).  [INTEGER] is 32 bits and [BIGINT] 64 bits, signed;
    [TEXT] holds up to 65535 bytes; [DATETIME] runs from year 1000 to year
    9999, counted here in seconds from 1970-01-01 00:00:00. *)
Inductive fit := Fits | OutOfRange | OtherType.

(** Does a text hold ASCII characters only?  Such a text is stored as
    given whatever the character set of the table, which the statement of
    cell 12 leaves to the server's default; other texts depend on it and
    are outside this model. *)
Fixpoint ascii_only (s : string) : bool :=
  match s with
  | EmptyString => true
  | String (Ascii.Ascii _ _ _ _ _ _ _ top) s' => negb top && ascii_only s'
  end.

Definition fit_of (ty : sql_type) (v : value) : fit :=
  match v, ty with
  | NULL, _ => Fits
  | VInt z, INTEGER =>
      if bool_decide (-2147483648 ≤ z ≤ 2147483647) then Fits else OutOfRange
  | VInt z, BIGINT =>
      if bool_decide (-9223372036854775808 ≤ z ≤ 9223372036854775807)
      then Fits else OutOfRange
  | VText s, TEXT =>
      if negb (ascii_only s) then OtherType
      else if bool_decide (Z.of_nat (String.length s) ≤ 65535) then Fits
      else OutOfRange
  | VDatetime s, DATETIME =>
      if bool_decide (-30610224000 ≤ s ≤ 253402300799) then Fits else OutOfRange
  | _, _ => OtherType
  end.

Definition out_of_range_message (ty : sql_type) : string :=
  match ty with
  | INTEGER | BIGINT => "Out of range value for column"
  | TEXT => "Data too long for column"
  | DATETIME => "Incorrect datetime value"
  end.

(** What the server does with one value for one column. *)
Inductive verdict :=
| Store
| Refuse (e : pyexn)
| Convert.

Definition field_verdict (c : column) (v : value) : verdict :=
  if col_not_null c && bool_decide (v = NULL)
  then Refuse (integrity_error "Column cannot be null")
  else match fit_of (col_type c) v with
       | Fits => Store
       | OutOfRange => Refuse (data_error (out_of_range_message (col_type c)))
       | OtherType => Convert
       end.

Definition column_named (name : string) : option column :=
  snd <$> list_find (λ c, col_name c = name) foodreview.

(** The values of a statement are taken in the order written; the first
    one that is not stored as given decides.  (Names that are not columns
    are dealt with before.) *)
Fixpoint fields_verdict (given : list (string * value)) : verdict :=
  match given with
  | [] => Store
  | (name, v) :: rest =>
      match column_named name with
      | None => fields_verdict rest
      | Some c =>
          match field_verdict c v with
          | Store => fields_verdict rest
          | other => other
          end
      end
  end.

(** Is a column that is [NOT NULL] and has no [DEFAULT] left without a
    value by the column list [cols] of an [INSERT]? *)
Definition missing_required (cols : list string) : bool :=
  existsb (λ c, col_not_null c
                && bool_decide (col_default c = NoDefault)
                && negb (bool_decide (col_name c ∈ cols)))
          foodreview.


Definition known_columns (cols : list string) : bool :=
  forallb (λ c, bool_decide (c ∈ column_names)) cols.

(** The primary key of a row, when it is an integer. *)
Definition key_of (r : row) : option Z :=
  match r !! primary_key with
  | Some (VInt k) => Some k
  | _ => None
  end.

(** [INSERT INTO foodreview (cols) VALUES (vals)] at time [now]: the new
    table, or the exception of a refusal; [None] when the outcome hangs on
    something this model leaves out (a conversion, or which of two
    refusals the server reports). *)
Definition sql_insert (now : Z) (given : list (string * value)) (t : table)
  : option (pyexn + table) :=
  if negb (known_columns given.*1) then Some (inl (programming_error "Unknown column"))
  else if negb (bool_decide (NoDup given.*1))
  then Some (inl (programming_error "Column specified twice"))
  else
    match fields_verdict given, missing_required given.*1 with
    | Convert, _ => None
    | Refuse e, false => Some (inl e)
    | Refuse e, true => None
    | Store, true => Some (inl (database_error "Field doesn't have a default value"))
    | Store, false =>
        let r := new_row now given in
        match key_of r with
        | None => None
        | Some k =>
            match t !! k with
            | Some _ => Some (inl (integrity_error "Duplicate entry for key PRIMARY"))
            | None => Some (inr (<[k := r]> t))
            end
        end
    end.

(** [UPDATE foodreview SET sets WHERE Id = k] at time [now]; values are
    only looked at when there is a row to update. *)
Definition sql_update (now : Z) (sets : list (string * value)) (k : Z) (t : table)
  : option (pyexn + table) :=
  if negb (known_columns sets.*1) then Some (inl (programming_error "Unknown column"))
  else match t !! k with
       | None => Some (inr t)
       | Some r =>
           match fields_verdict sets with
           | Convert => None
           | Refuse e => Some (inl e)
           | Store =>
               let r' := update_row now sets r in
               match key_of r' with
               | None => None
               | Some k' =>
                   if decide (k' = k) then Some (inr (<[k := r']> t))
                   else match t !! k' with
                        | Some _ =>
                            Some (inl (integrity_error
                                         "Duplicate entry for key PRIMARY"))
                        | None => Some (inr (<[k' := r']> (delete k t)))
                        end
               end
           end
       end.

(** The change marker of a row: its [LastUpdated], in seconds. *)
Definition last_updated (r : row) : option Z :=
  match r !! server_change_detection_column_name with
  | Some (VDatetime s) => Some s
  | _ => None
  end.

End MySQL.

(** ** Cells 5 and 26-33: what the notebook configures in Azure AI Search *)

Module SearchConfig.

Definition EMBEDDING_LENGTH : nat := 1536.

(** Cell 26: the two detection policies of the data source connection. *)
Record HighWaterMarkChangeDetectionPolicy :=
  { high_water_mark_column_name : string }.

Record SoftDeleteColumnDeletionDetectionPolicy :=
  { soft_delete_column_name : string; soft_delete_marker_value : string }.

Definition change_detection_policy : HighWaterMarkChangeDetectionPolicy :=
  {| high_water_mark_column_name := MySQL.server_change_detection_column_name |}.

Definition soft_delete_detection_policy : SoftDeleteColumnDeletionDetectionPolicy :=
  {| soft_delete_column_name := MySQL.server_soft_delete_column_name;
     soft_delete_marker_value := MySQL.server_soft_delete_marker_value |}.

(** Cell 29: the fields of the index. *)
Inductive SearchFieldDataType := EdmString | EdmInt64 | CollectionSingle.

Record SearchField := {
  name : string;
  type : SearchFieldDataType;
  key : bool;
  vector_search_dimensions : option nat
}.

Definition fields : list SearchField :=
  [ {| name := "Id"; type := EdmString; key := true;
       vector_search_dimensions := None |};
    {| name := "chunk"; type := EdmString; key := false;
       vector_search_dimensions := None |};
    {| name := "vector"; type := CollectionSingle; key := false;
       vector_search_dimensions := Some EMBEDDING_LENGTH |};
    {| name := "parent_id"; type := EdmString; key := false;
       vector_search_dimensions := None |};
    {| name := "parent_product_id"; type := EdmString; key := false;
       vector_search_dimensions := None |};
    {| name := "parent_text"; type := EdmString; key := false;
       vector_search_dimensions := None |};
    {| name := "parent_summary"; type := EdmString; key := false;
       vector_search_dimensions := None |};
    {| name := "parent_score"; type := EdmInt64; key := false;
       vector_search_dimensions := None |} ].

(** Cell 31: the split skill and the index projection. *)
Record SplitSkill := {
  text_split_mode : string;
  maximum_page_length : nat;
  page_overlap_length : nat;
  split_input : string;
  split_output : string
}.

Definition split_skill : SplitSkill :=
  {| text_split_mode := "pages";
     maximum_page_length := 300;
     page_overlap_length := 20;
     split_input := "/document/TextConcat";
     split_output := "pages" |}.

Record SearchIndexerIndexProjectionSelector := {
  parent_key_field_name : string;
  source_context : string;
  mappings : list (string * string)
}.

Definition index_projections : SearchIndexerIndexProjectionSelector :=
  {| parent_key_field_name := "parent_id";
     source_context := "/document/pages/*";
     mappings :=
       [ ("chunk", "/document/pages/*");
         ("vector", "/document/pages/*/vector");
         ("parent_product_id", "/document/ProductId");
         ("parent_text", "/document/Text");
         ("parent_summary", "/document/Summary");
         ("parent_score", "/document/Score") ] |}.

End SearchConfig.

(** ** Cells 38-45: the query and the grounded completion *)

Module Query.

Record VectorizableTextQuery := {
  vq_text : string;
  k_nearest_neighbors : nat;
  vq_fields : string;
  exhaustive : bool
}.

Record SearchRequest := {
  search_text : string;
  vector_queries : list VectorizableTextQuery;
  select : list string;
  query_type : string;
  semantic_configuration_name : string;
  top : nat
}.

(** The arguments of [search_client.search] in cell 40. *)
Definition search_request (user_query : string) : SearchRequest :=
  {| search_text := user_query;
     vector_queries :=
       [ {| vq_text := user_query; k_nearest_neighbors := 3;
            vq_fields := "vector"; exhaustive := true |} ];
     select := [ "Id"; "parent_id"; "chunk"; "parent_product_id";
                 "parent_text"; "parent_summary"; "parent_score" ];
     query_type := "semantic";
     semantic_configuration_name := "my-semantic-config";
     top := 5 |}.

(** The parameters of the data source in the [extra_body] of cell 45, and
    the sampling arguments. *)
Record CompletionRequest := {
  message_text : list (string * string);
  data_source_type : string;
  completion_query_type : string;
  completion_semantic_configuration : string;
  in_scope : bool;
  strictness : nat;
  top_n_documents : nat;
  n : nat;
  temperature : nat;
  top_p : nat;
  max_tokens : nat
}.

Definition completion_request (user_query : string) : CompletionRequest :=
  {| message_text := [ ("user", user_query) ];
     data_source_type := "AzureCognitiveSearch";
     completion_query_type := "vectorSemanticHybrid";
     completion_semantic_configuration := "my-semantic-config";
     in_scope := true;
     strictness := 3;
     top_n_documents := 5;
     n := 3;
     temperature := 1;
     top_p := 1;
     max_tokens := 1024 |}.

Section Answer.

(** Scores are floating-point numbers; only their printed form is used. *)
Context {Float : Type}.
Variable float_str : Float → string.

(** One item of the result iterator: the selected fields and the two
    scores the service attaches. *)
Record SearchResult := {
  search_score : Float;
  search_reranker_score : Float;
  Id : pyval;
  parent_id : pyval;
  chunk : pyval;
  parent_product_id : pyval;
  parent_text : pyval;
  parent_summary : pyval;
  parent_score : pyval
}.

(** What iterating the object returned by [search_client.search] does:
    it yields some results and then either stops or raises. *)
Variable search : SearchRequest → list SearchResult * option pyexn.

(** [client.chat.completions.create]: the completion, as the JSON text
    that [model_dump_json(indent=2)] gives, or an exception. *)
Variable create : CompletionRequest → pyexn + string.

(** The state of both cells is what has been printed, one line per
    [print]. *)
Definition print (line : string) : Cell.M (list string) unit :=
  Cell.modify (λ out, out ++ [line]).

(** The body of the loop of cell 40. *)
Definition print_result (result : SearchResult) : Cell.M (list string) unit :=
  print ("Search score: " +:+ float_str (search_score result));;
  print ("Search re-ranker score: " +:+ float_str (search_reranker_score result));;
  print ("Parent Id: " +:+ py_format (parent_id result)
           +:+ " | Chunk id: " +:+ py_format (Id result));;
  print ("Product Id: " +:+ py_format (parent_product_id result));;
  print ("Text chunk: " +:+ py_format (chunk result));;
  print ("Review summary: " +:+ py_format (parent_summary result));;
  print ("Review text: " +:+ py_format (parent_text result));;
  print ("Review score: " +:+ py_format (parent_score result));;
  print "-----".

(** Cell 40. *)
Definition query_cell (user_query : string) : Cell.M (list string) unit :=
  let results := search (search_request user_query) in
  Cell.for_each results.1 print_result;;
  match results.2 with
  | Some e => Cell.raise e
  | None => mret tt
  end.

(** Cell 45. *)
Definition completion_cell (user_query : string) : Cell.M (list string) unit :=
  match create (completion_request user_query) with
  | inl e => Cell.raise e
  | inr completion => print completion
  end.

(** Answering a query: cell 40, then cell 45. *)
Definition answer (user_query : string) : Cell.M (list string) unit :=
  query_cell user_query;; completion_cell user_query.

End Answer.

Arguments SearchResult : clear implicits.

End Query.

(** ** Cell 12 as a whole: drop, create, report *)

Module TableSetup.

Import MySQL.

Definition newline : string := String (Ascii.ascii_of_nat 10) "".

(** [f"DROP TABLE IF EXISTS {table_name};"]. *)
Definition drop_statement : string :=
  "DROP TABLE IF EXISTS " +:+ Ingestion.table_name +:+ ";".

(** The text of the second statement, line by line as the cell has it. *)
Definition create_statement : string :=
  String.concat newline
    [ "";
      "               CREATE TABLE " +:+ Ingestion.table_name +:+ " ";
      "               (Id integer NOT NULL, ";
      "               ProductId text, ";
      "               UserId text, ";
      "               ProfileName text, ";
      "               HelpfulnessNumerator integer, ";
      "               HelpfulnessDenominator integer, ";
      "               Score integer, ";
      "               Time bigint, ";
      "               Summary text, ";
      "               Text text,";
      "               TextConcat text,";
      "               Created DATETIME DEFAULT CURRENT_TIMESTAMP,";
      "               LastUpdated DATETIME DEFAULT CURRENT_TIMESTAMP ON UPDATE CURRENT_TIMESTAMP,";
      "               Deleted integer DEFAULT 0,";
      "               PRIMARY KEY (Id)";
      "               );";
      "               " ].

Section Cell12.

(** The server behind [cursor]: what [cursor.execute(stmt)] does to it, or
    the exception it raises when the statement is refused or cannot be
    sent. *)
Context {DB : Type}.
Variable execute : string → DB → pyexn + DB.

Record session := { database : DB; stdout : list string }.

Definition cursor_execute (stmt : string) : Cell.M session unit :=
  λ s, match execute stmt (database s) with
       | inl e => (inl e, s)
       | inr d => (inr tt, {| database := d; stdout := stdout s |})
       end.

Definition print (line : string) : Cell.M session unit :=
  Cell.modify (λ s, {| database := database s; stdout := stdout s ++ [line] |}).

(** Cell 12 up to the three assignments that close it. *)
Definition create_cell : Cell.M session unit :=
  cursor_execute drop_statement;;
  print "Finished dropping table (if existed)";;
  cursor_execute create_statement;;
  print "Finished creating table".

End Cell12.

Arguments session : clear implicits.


End TableSetup.

(** ** Cell 21: the row count, with its [try]/[except] *)

Module CountCheck.

(** [repr] of a tuple of integers, as [print(row)] shows a result row. *)
Definition tuple_repr (row : list Z) : string :=
  match row with
  | [] => "()"
  | [x] => "(" +:+ pretty x +:+ ",)"
  | _ => "(" +:+ String.concat ", " (pretty <$> row) +:+ ")"
  end.

Definition select_count : string :=
  "SELECT count(Id) FROM " +:+ Ingestion.table_name +:+ ";".

Section Check.

(** The cursor: [cursor.execute(stmt)] and [cursor.fetchall()], each of
    which may raise; and whether an exception is an instance of
    [Exception] (a [KeyboardInterrupt] is not). *)
Context {Cur : Type}.
Variable execute : string → Cur → pyexn + Cur.
Variable fetchall : Cur → pyexn + (list (list Z) * Cur).
Variable is_Exception : pyexn → bool.

Record state := { cur : Cur; out : list string }.

Definition print (line : string) : Cell.M state unit :=
  Cell.modify (λ s, {| cur := cur s; out := out s ++ [line] |}).

Definition cursor_execute (stmt : string) : Cell.M state unit :=
  λ s, match execute stmt (cur s) with
       | inl e => (inl e, s)
       | inr c => (inr tt, {| cur := c; out := out s |})
       end.

Definition cursor_fetchall : Cell.M state (list (list Z)) :=
  λ s, match fetchall (cur s) with
       | inl e => (inl e, s)
       | inr (rows, c) => (inr rows, {| cur := c; out := out s |})
       end.

(** [try: body except Exception as e: handler(e)]. *)
Definition try_except {A} (body : Cell.M state A) (handler : pyexn → Cell.M state A)
  : Cell.M state A :=
  λ s, match body s with
       | (inl e, s') => if is_Exception e then handler e s' else (inl e, s')
       | (inr a, s') => (inr a, s')
       end.

(** Cell 21. *)
Definition count_cell : Cell.M state unit :=
  try_except
    (cursor_execute select_count;;
     rows ← cursor_fetchall;
     Cell.for_each rows (λ row, print (tuple_repr row)))
    (λ e, print ("Error executing SELECT statement: " +:+ exc_msg e)).

End Check.

Arguments state : clear implicits.

End CountCheck.

(** ** Cells 26, 31 and 33: the names of the resources *)

Module Resources.

(** A value read from the environment file is a string, or [None] for a
    key without a value; an f-string shows [None] as such. *)
Definition env_format (v : option string) : string :=
  match v with
  | Some s => s
  | None => "None"
  end.

(** Cell 26: [f"{index_name}-mysql-connection"]. *)
Definition data_source_name (index_name : option string) : string :=
  env_format index_name +:+ "-mysql-connection".

(** Cell 31: [f"{index_name}-skillset"]. *)
Definition skillset_name (index_name : option string) : string :=
  env_format index_name +:+ "-skillset".

(** Cell 33: [f"{index_name}-indexer"]. *)
Definition indexer_name (index_name : option string) : string :=
  env_format index_name +:+ "-indexer".

(** Cell 26: the connection string of the data source. *)
Definition ds_conn_str (server database username password : option string) : string :=
  "Server=" +:+ env_format server +:+ "; Port=3306; Database=" +:+ env_format database
    +:+ "; Uid=" +:+ env_format username +:+ "; Pwd=" +:+ env_format password
    +:+ "; SslMode=Preferred;".

(** Does a string hold no semicolon? *)
Fixpoint semicolon_free (s : string) : bool :=
  match s with
  | EmptyString => true
  | String c s' => negb (Ascii.eqb c ";"%char) && semicolon_free s'
  end.

End Resources.

(** ** Cell 40: the nine lines printed for one result *)

Module QueryOutput.

(** The arguments of the nine [print] calls in the loop of cell 40. *)
Definition result_lines {Float : Type} (float_str : Float → string)
    (result : Query.SearchResult Float) : list string :=
  [ "Search score: " +:+ float_str (Query.search_score result);
    "Search re-ranker score: " +:+ float_str (Query.search_reranker_score result);
    "Parent Id: " +:+ py_format (Query.parent_id result)
      +:+ " | Chunk id: " +:+ py_format (Query.Id result);
    "Product Id: " +:+ py_format (Query.parent_product_id result);
    "Text chunk: " +:+ py_format (Query.chunk result);
    "Review summary: " +:+ py_format (Query.parent_summary result);
    "Review text: " +:+ py_format (Query.parent_text result);
    "Review score: " +:+ py_format (Query.parent_score result);
    "-----" ].

End QueryOutput.

(** ** Sample data used by the examples *)

(** A small dataframe and a connector that records what it is given. *)
Definition sample_review (id : Z) (summary text : pyval) : Ingestion.Review :=
  {| Ingestion.Id := PInt id; Ingestion.ProductId := PStr "B001";
     Ingestion.UserId := PStr "A1"; Ingestion.ProfileName := PNaN;
     Ingestion.HelpfulnessNumerator := PInt 1;
     Ingestion.HelpfulnessDenominator := PInt 1;
     Ingestion.Score := PInt 5; Ingestion.Time := PInt 1303862400;
     Ingestion.Summary := summary; Ingestion.Text := text |}.

Definition sample_df : list Ingestion.Review :=
  [ sample_review 1 (PStr "Great!") (PStr "My cat loved it.");
    sample_review 2 PNaN (PStr "Stale.") ].

(** A frame whose ten columns are all numeric, with the profile name
    missing (a float column), and a frame with the same summary and review
    text next to a product id that is a string. *)
Definition numeric_df : list Ingestion.Review :=
  [ {| Ingestion.Id := PInt 1; Ingestion.ProductId := PInt 7;
       Ingestion.UserId := PInt 3; Ingestion.ProfileName := PNaN;
       Ingestion.HelpfulnessNumerator := PInt 1;
       Ingestion.HelpfulnessDenominator := PInt 1;
       Ingestion.Score := PInt 5; Ingestion.Time := PInt 1303862400;
       Ingestion.Summary := PInt 4; Ingestion.Text := PInt 6 |} ].

Definition mixed_df : list Ingestion.Review :=
  [ sample_review 1 (PInt 4) (PInt 6) ].

Definition recording_executemany
    (cols : list string) (rows : list (list pyval)) (db : list (list pyval))
  : pyexn + list (list pyval) :=
  inr (db ++ rows).

(** The row that [INSERT INTO foodreview (Id, Score, Summary) VALUES
    (1, 5, 'Great!')] stores when [CURRENT_TIMESTAMP] reads second 100. *)
Definition sample_row : gmap string MySQL.value :=
  MySQL.new_row 100
    [ ("Id", MySQL.VInt 1); ("Score", MySQL.VInt 5); ("Summary", MySQL.VText "Great!") ].

(** A table of two rows: the one above and a row given only its [Id]. *)
Definition sample_row2 : gmap string MySQL.value :=
  MySQL.new_row 100 [ ("Id", MySQL.VInt 2) ].

Definition sample_table : gmap Z (gmap string MySQL.value) :=
  <[ 2 := sample_row2 ]> {[ 1 := sample_row ]}.

(** Three stand-ins for the services behind cells 40 and 45: an index
    without a match, a completion that succeeds, and a completion that is
    refused with the client's [RateLimitError]. *)
Definition no_match_search (request : Query.SearchRequest)
  : list (Query.SearchResult string) * option pyexn :=
  ([], None).

Definition ok_create (request : Query.CompletionRequest) : pyexn + string :=
  inr "{}".

Definition rate_limited_create (request : Query.CompletionRequest) : pyexn + string :=
  inl (PyExn "RateLimitError" "Error code: 429").

Definition one_match_search (request : Query.SearchRequest)
  : list (Query.SearchResult string) * option pyexn :=
  ([ {| Query.search_score := "0.03"; Query.search_reranker_score := "2.5";
        Query.Id := PStr "1_pages_0"; Query.parent_id := PStr "1";
        Query.chunk := PStr "Summary: Great! | Review: My cat loved it.";
        Query.parent_product_id := PStr "B001";
        Query.parent_text := PStr "My cat loved it.";
        Query.parent_summary := PStr "Great!";
        Query.parent_score := PInt 5 |} ],
   Some (PyExn "HttpResponseError" "Operation returned an invalid status")).

(** * Properties *)

(** ** Python helpers *)

Section PyFacts.

Context {A : Type}.
Implicit Types l : list A.

Lemma py_slice_step l (i b : nat) : py_slice l i (i + b) = take b (drop i l).
Proof. unfold py_slice. f_equal. lia. Qed.

(** Cutting [l] into [k] consecutive pieces of [b] elements loses nothing
    as long as [k * b] reaches the end of [l]. *)
Lemma concat_pieces (b k : nat) l :
  (length l ≤ k * b)%nat →
  concat ((λ j, take b (drop (j * b) l)) <$> seq 0 k) = l.
Proof.
  revert l. induction k as [|k IH]; intros l Hlen.
  - destruct l; [done | simpl in Hlen; lia].
  - cbn [seq fmap list_fmap concat]. rewrite <- fmap_S_seq, <- list_fmap_compose.
    rewrite Nat.mul_0_l, drop_0.
    transitivity (take b l ++ drop b l); [|apply take_drop]. f_equal.
    etransitivity; [|apply (IH (drop b l)); rewrite length_drop; lia].
    f_equal. apply list_fmap_ext. intros _ j _. simpl.
    by rewrite drop_drop.
Qed.

Lemma py_range_0 (stop step : nat) :
  py_range 0 stop step = (λ k, k * step)%nat <$> seq 0 ((stop + (step - 1)) / step)%nat.
Proof. unfold py_range. by rewrite Nat.sub_0_r. Qed.

End PyFacts.

(** ** The ingestion loader *)

Section IngestionFacts.

Import Ingestion.

(** The batches of cell 19, put back together, are the dataframe. *)
Lemma concat_batches {A} (df : list A) : concat (batches df) = df.
Proof.
  unfold batches. rewrite py_range_0, <- list_fmap_compose.
  etransitivity;
    [|apply (concat_pieces batch_size ((length df + (batch_size - 1)) / batch_size))].
  - f_equal. apply list_fmap_ext. intros _ j _. simpl.
    apply py_slice_step.
  - unfold batch_size.
    pose proof (Nat.div_mod_eq (length df + (30 - 1)) 30).
    pose proof (Nat.mod_upper_bound (length df + (30 - 1)) 30).
    lia.
Qed.

(** No batch holds more than [batch_size] rows. *)
Lemma batches_length {A} (df : list A) (batch : list A) :
  batch ∈ batches df → (length batch ≤ batch_size)%nat.
Proof.
  unfold batches. intros (i & -> & _)%list_elem_of_fmap.
  rewrite py_slice_step, length_take. lia.
Qed.

Context {DB : Type} (executemany : list string → list (list pyval) → DB → pyexn + DB).

(** A batch is handed to the connector whole, whether or not the call
    raises. *)
Lemma execute_batch_sent (batch : list Row) (st : upload_state) :
  sent (execute_batch executemany batch st).2 = sent st ++ (row_tuple <$> batch).
Proof. unfold execute_batch. by destruct (executemany _ _ _). Qed.

Lemma for_each_cons {S A} (x : A) (xs : list A) (body : A → Cell.M S unit) (s : S) :
  Cell.for_each (x :: xs) body s
  = match body x s with
    | (inl e, s') => (inl e, s')
    | (inr _, s') => Cell.for_each xs body s'
    end.
Proof. done. Qed.

End IngestionFacts.

Example sample_upload :
  Ingestion.sent
    (Ingestion.upload recording_executemany sample_df
       {| Ingestion.db := []; Ingestion.sent := [] |}).2
  = [ [ PInt 1; PStr "B001"; PStr "A1"; PNaN; PInt 1; PInt 1; PInt 5;
        PInt 1303862400; PStr "Great!"; PStr "My cat loved it.";
        PStr "Summary: Great! | Review: My cat loved it." ];
      [ PInt 2; PStr "B001"; PStr "A1"; PNaN; PInt 1; PInt 1; PInt 5;
        PInt 1303862400; PNaN; PStr "Stale.";
        PStr "Summary: nan | Review: Stale." ] ].
Proof. reflexivity. Qed.


(** ** The table [foodreview] *)

Example sample_row_defaults :
  sample_row !! "Created" = Some (MySQL.VDatetime 100)
  ∧ sample_row !! "LastUpdated" = Some (MySQL.VDatetime 100)
  ∧ sample_row !! "Deleted" = Some (MySQL.VInt 0)
  ∧ sample_row !! "Text" = Some MySQL.NULL
  ∧ MySQL.sql_insert 100
      [ ("Id", MySQL.VInt 1); ("Score", MySQL.VInt 5); ("Summary", MySQL.VText "Great!") ]
      ∅ = Some (inr {[ 1 := sample_row ]})
  ∧ MySQL.sql_insert 101 [ ("Id", MySQL.VInt 1) ] {[ 1 := sample_row ]}
    = Some (inl (MySQL.integrity_error "Duplicate entry for key PRIMARY"))
  ∧ MySQL.sql_insert 101 [ ("Score", MySQL.VInt 1) ] ∅
    = Some (inl (MySQL.database_error "Field doesn't have a default value"))
  ∧ MySQL.sql_insert 101 [ ("Id", MySQL.NULL) ] ∅
    = Some (inl (MySQL.integrity_error "Column cannot be null"))
  ∧ MySQL.sql_insert 101 [ ("Id", MySQL.VInt 2147483648) ] ∅
    = Some (inl (MySQL.data_error "Out of range value for column"))
  ∧ MySQL.sql_insert 101 [ ("Id", MySQL.VInt 2); ("Score", MySQL.VText "abc") ] ∅ = None
  ∧ MySQL.sql_insert 101 [ ("Id", MySQL.VText "7") ] ∅ = None
  ∧ MySQL.sql_update 200 [ ("Score", MySQL.VText "5") ] 1 {[ 1 := sample_row ]} = None
  ∧ MySQL.sql_update 200 [ ("Score", MySQL.VInt 5) ] 1 {[ 1 := sample_row ]}
    = Some (inr {[ 1 := sample_row ]}).
Proof. repeat split; reflexivity. Qed.

Section MySQLFacts.

Import MySQL.
Implicit Types (r : gmap string value) (sets : list (string * value)).

(** A column that no [SET] clause names keeps its value. *)
Lemma assign_lookup_notin sets r (c : string) :
  c ∉ sets.*1 → assign sets r !! c = r !! c.
Proof.
  unfold assign. revert r. induction sets as [|[c' v] sets IH]; intros r Hc.
  - done.
  - simpl in *. apply not_elem_of_cons in Hc as [Hne Hc].
    rewrite IH by done. by rewrite lookup_insert_ne.
Qed.

(** [LastUpdated] is the only column declared [ON UPDATE
    CURRENT_TIMESTAMP], so an update either stamps it or leaves the
    assigned row as it is. *)
Lemma update_row_unfold now sets r :
  update_row now sets r
  = if negb (bool_decide ("LastUpdated" ∈ sets.*1))
       && other_column_changed "LastUpdated" r (assign sets r)
    then <["LastUpdated" := VDatetime now]> (assign sets r)
    else assign sets r.
Proof. done. Qed.

Lemma other_column_changed_false (c : string) r r' :
  other_column_changed c r r' = false →
  ∀ c', c' ∈ column_names → c' ≠ c → r' !! c' = r !! c'.
Proof.
  unfold other_column_changed. intros Hex c' Hin Hne.
  destruct (decide (r' !! c' = r !! c')) as [|Hdiff]; [done|].
  assert (existsb (λ c', bool_decide (c' ≠ c) && bool_decide (r' !! c' ≠ r !! c'))
                  column_names = true) as Htrue; [|congruence].
  apply existsb_exists. exists c'. split; [by apply list_elem_of_In|].
  by rewrite !bool_decide_eq_true_2.
Qed.

Lemma other_column_changed_true (c : string) r r' :
  other_column_changed c r r' = true →
  ∃ c' : string, c' ≠ c ∧ r' !! c' ≠ r !! c'.
Proof.
  unfold other_column_changed. intros (c' & _ & Hc')%existsb_exists.
  apply andb_true_iff in Hc' as [Hne Hdiff].
  exists c'. split; by eapply bool_decide_eq_true_1.
Qed.

Lemma other_column_changed_intro (c c' : string) r r' :
  c' ∈ column_names → c' ≠ c → r' !! c' ≠ r !! c' →
  other_column_changed c r r' = true.
Proof.
  intros Hin Hne Hdiff. unfold other_column_changed.
  apply existsb_exists. exists c'. split; [by apply list_elem_of_In|].
  by rewrite !bool_decide_eq_true_2.
Qed.

Lemma known_columns_elem (cols : list string) (c : string) :
  known_columns cols = true → c ∈ cols → c ∈ column_names.
Proof.
  unfold known_columns. rewrite forallb_forall. intros Hall Hin.
  apply list_elem_of_In, Hall in Hin. by apply bool_decide_eq_true_1 in Hin.
Qed.

(** An update that names only columns of the table, does not assign
    [LastUpdated] and changes no other column leaves the row as it was. *)
Lemma update_row_unchanged now sets r :
  known_columns sets.*1 = true →
  "LastUpdated" ∉ sets.*1 →
  other_column_changed "LastUpdated" r (assign sets r) = false →
  update_row now sets r = r.
Proof.
  intros Hknown Hlu Hsame. rewrite update_row_unfold, Hsame, andb_false_r.
  apply map_eq. intros c.
  destruct (decide (c = "LastUpdated")) as [->|Hne].
  - by apply assign_lookup_notin.
  - destruct (decide (c ∈ sets.*1)) as [Hin|Hnin].
    + eapply other_column_changed_false; eauto using known_columns_elem.
    + by apply assign_lookup_notin.
Qed.

Lemma update_row_stamped now sets r :
  "LastUpdated" ∉ sets.*1 →
  other_column_changed "LastUpdated" r (assign sets r) = true →
  last_updated (update_row now sets r) = Some now.
Proof.
  intros Hlu Hch. rewrite update_row_unfold, Hch, andb_true_r.
  rewrite bool_decide_eq_false_2 by done. simpl.
  unfold last_updated, server_change_detection_column_name.
  by rewrite lookup_insert_eq.
Qed.

Lemma update_row_keeps_unassigned now sets r (c : string) :
  c ≠ "LastUpdated" → c ∉ sets.*1 → update_row now sets r !! c = r !! c.
Proof.
  intros Hne Hc. rewrite update_row_unfold.
  destruct (_ && _); [rewrite lookup_insert_ne by done|];
    by apply assign_lookup_notin.
Qed.

End MySQLFacts.

(** C9, as stated, fails on the table of cell 12.  Three statements on the
    row inserted at second 100:
    - an [UPDATE] of [Score] executed within the same second changes the
      row and leaves [LastUpdated] where it was;
    - an [UPDATE] that assigns [LastUpdated] an earlier time is a field
      mutation that moves the timestamp back;
    - [UPDATE foodreview SET Id = 2 WHERE Id = 1] is accepted: the primary
      key only asks for a value that is present and not taken. *)
Lemma LastUpdated_not_strict_and_Id_assignable :
  (MySQL.update_row 100 [ ("Score", MySQL.VInt 1) ] sample_row ≠ sample_row
   ∧ MySQL.last_updated sample_row = Some 100
   ∧ MySQL.last_updated (MySQL.update_row 100 [ ("Score", MySQL.VInt 1) ] sample_row)
     = Some 100)
  ∧ (MySQL.last_updated
       (MySQL.update_row 200 [ ("LastUpdated", MySQL.VDatetime 50) ] sample_row)
     = Some 50)
  ∧ (MySQL.key_of sample_row = Some 1
     ∧ MySQL.sql_update 200 [ ("Id", MySQL.VInt 2) ] 1 {[ 1 := sample_row ]}
       = Some (inr {[ 2 := MySQL.update_row 200 [ ("Id", MySQL.VInt 2) ] sample_row ]})
     ∧ MySQL.key_of (MySQL.update_row 200 [ ("Id", MySQL.VInt 2) ] sample_row)
       = Some 2).
Proof.
  split; [split; [|by split]|repeat split].
  intros Heq. apply (f_equal (λ r : gmap string MySQL.value, r !! "Score")) in Heq.
  by vm_compute in Heq.
Qed.

(** C9, amended.  For an [UPDATE] that names only columns of the table,
    gives them values the server stores as given, and does not assign
    [LastUpdated], applied to a row whose [LastUpdated] is [old] when
    [CURRENT_TIMESTAMP] reads [now]:
    - if it does not assign [Id], the row keeps its [Id];
    - if it gives some column other than [LastUpdated] a value different
      from the one the row holds, [LastUpdated] becomes [now];
    - if it gives no such column a different value, the row is left as it
      was, [LastUpdated] included;
    - so, when the clock has not gone back ([old <= now]), the timestamp
      does not decrease, and it grows strictly exactly when some other
      column changed its value and [now] is a later second than [old]. *)
Theorem update_row_change_marker
    (now old : Z) (sets : list (string * MySQL.value)) (r : gmap string MySQL.value) :
  MySQL.known_columns sets.*1 = true →
  MySQL.fields_verdict sets = MySQL.Store →
  "LastUpdated" ∉ sets.*1 →
  MySQL.last_updated r = Some old →
  ("Id" ∉ sets.*1 → MySQL.update_row now sets r !! "Id" = r !! "Id")
  ∧ ((∃ c : string, c ≠ "LastUpdated" ∧ MySQL.assign sets r !! c ≠ r !! c) →
     MySQL.last_updated (MySQL.update_row now sets r) = Some now)
  ∧ ((∀ c : string, c ≠ "LastUpdated" → MySQL.assign sets r !! c = r !! c) →
     MySQL.update_row now sets r = r)
  ∧ (old ≤ now →
     ∃ new, MySQL.last_updated (MySQL.update_row now sets r) = Some new
            ∧ old ≤ new
            ∧ (old < new
               ↔ (∃ c : string, c ≠ "LastUpdated" ∧ MySQL.assign sets r !! c ≠ r !! c)
                 ∧ old < now)).
Proof.
  intros Hknown _ Hlu Hold.
  assert ((∃ c : string, c ≠ "LastUpdated" ∧ MySQL.assign sets r !! c ≠ r !! c) →
          MySQL.other_column_changed "LastUpdated" r (MySQL.assign sets r) = true)
    as Hchanged.
  { intros (c & Hne & Hdiff). apply (other_column_changed_intro _ c); [|done..].
    destruct (decide (c ∈ sets.*1)) as [Hin|Hnin].
    - by eapply known_columns_elem.
    - destruct Hdiff. by apply assign_lookup_notin. }
  assert ((∀ c : string, c ≠ "LastUpdated" → MySQL.assign sets r !! c = r !! c) →
          MySQL.other_column_changed "LastUpdated" r (MySQL.assign sets r) = false)
    as Hsame.
  { intros Hall. apply not_true_is_false.
    intros (c & Hne & Hdiff)%other_column_changed_true. by apply Hdiff, Hall. }
  split; [by apply update_row_keeps_unassigned|].
  split; [intros H; by apply update_row_stamped, Hchanged|].
  split; [intros H; by apply update_row_unchanged, Hsame|].
  intros Hclock.
  destruct (MySQL.other_column_changed "LastUpdated" r (MySQL.assign sets r)) eqn:Hch.
  - exists now. split; [by apply update_row_stamped|]. split; [done|].
    split; [|by intros [_ ?]].
    intros Hlt. split; [|done]. by apply other_column_changed_true.
  - exists old. rewrite update_row_unchanged by done.
    split; [done|]. split; [lia|]. split; [lia|].
    intros [Hex _]. apply Hchanged in Hex. congruence.
Qed.

Lemma update_row_change_marker_witness :
  ("Id" ∉ [ ("Score", MySQL.VInt 1) ].*1 →
   MySQL.update_row 200 [ ("Score", MySQL.VInt 1) ] sample_row !! "Id"
   = sample_row !! "Id")
  ∧ ((∃ c : string, c ≠ "LastUpdated"
                    ∧ MySQL.assign [ ("Score", MySQL.VInt 1) ] sample_row !! c
                      ≠ sample_row !! c) →
     MySQL.last_updated (MySQL.update_row 200 [ ("Score", MySQL.VInt 1) ] sample_row)
     = Some 200)
  ∧ ((∀ c : string, c ≠ "LastUpdated" →
        MySQL.assign [ ("Score", MySQL.VInt 1) ] sample_row !! c = sample_row !! c) →
     MySQL.update_row 200 [ ("Score", MySQL.VInt 1) ] sample_row = sample_row)
  ∧ (100 ≤ 200 →
     ∃ new,
       MySQL.last_updated (MySQL.update_row 200 [ ("Score", MySQL.VInt 1) ] sample_row)
       = Some new
       ∧ 100 ≤ new
       ∧ (100 < new
          ↔ (∃ c : string, c ≠ "LastUpdated"
                           ∧ MySQL.assign [ ("Score", MySQL.VInt 1) ] sample_row !! c
                             ≠ sample_row !! c)
            ∧ 100 < 200)).
Proof.
  apply (update_row_change_marker 200 100 [ ("Score", MySQL.VInt 1) ] sample_row).
  - reflexivity.
  - reflexivity.
  - apply (bool_decide_unpack _). vm_compute. exact I.
  - reflexivity.
Defined.

(** ** The query and completion cells *)

Section QueryFacts.

Import Query.

Context {Float : Type} (float_str : Float → string).
Variable search : SearchRequest → list (SearchResult Float) * option pyexn.
Variable create : CompletionRequest → pyexn + string.

(** Printing a result appends nine lines and cannot raise. *)
Lemma print_result_returns (result : SearchResult Float) (out : list string) :
  ∃ lines, length lines = 9%nat
           ∧ print_result float_str result out = (inr tt, out ++ lines).
Proof.
  eexists. split; last first.
  - unfold print_result, print, Cell.modify, mbind, cell_bind, Cell.bind. cbn.
    rewrite <- !app_assoc. reflexivity.
  - done.
Qed.

(** The loop of cell 40 prints nine lines per result and cannot raise. *)
Lemma print_results_return (results : list (SearchResult Float)) (out : list string) :
  ∃ lines, length lines = (9 * length results)%nat
           ∧ Cell.for_each results (print_result float_str) out = (inr tt, out ++ lines).
Proof.
  revert out. induction results as [|result results IH]; intros out.
  - exists []. by rewrite app_nil_r.
  - destruct (print_result_returns result out) as (l1 & Hl1 & Hrun).
    destruct (IH (out ++ l1)) as (l2 & Hl2 & Hrest).
    exists (l1 ++ l2). split.
    + rewrite length_app. simpl. lia.
    + rewrite for_each_cons, Hrun, Hrest. by rewrite app_assoc.
Qed.

(** Cell 40 raises what iterating the results raises, and nothing else. *)
Lemma query_cell_raised (user_query : string) (out : list string) :
  Cell.raised (query_cell float_str search user_query out)
  = (search (search_request user_query)).2.
Proof.
  unfold query_cell, mbind, cell_bind, Cell.bind.
  destruct (print_results_return (search (search_request user_query)).1 out)
    as (lines & _ & ->).
  by destruct (search (search_request user_query)).2.
Qed.

Lemma query_cell_returns (user_query : string) (out : list string) :
  (search (search_request user_query)).2 = None →
  (query_cell float_str search user_query out).1 = inr tt.
Proof.
  intros Hnone. unfold query_cell, mbind, cell_bind, Cell.bind.
  destruct (print_results_return (search (search_request user_query)).1 out)
    as (lines & _ & ->).
  by rewrite Hnone.
Qed.

(** Cell 45 raises what the completion client raises, and nothing else. *)
Lemma completion_cell_raised (user_query : string) (out : list string) :
  Cell.raised (completion_cell create user_query out)
  = match create (completion_request user_query) with
    | inl e => Some e
    | inr _ => None
    end.
Proof. unfold completion_cell. by destruct (create _). Qed.

End QueryFacts.

Example one_match_then_failure :
  Query.query_cell id one_match_search "Cat food" []
  = (inl (PyExn "HttpResponseError" "Operation returned an invalid status"),
     [ "Search score: 0.03"; "Search re-ranker score: 2.5";
       "Parent Id: 1 | Chunk id: 1_pages_0"; "Product Id: B001";
       "Text chunk: Summary: Great! | Review: My cat loved it.";
       "Review summary: Great!"; "Review text: My cat loved it.";
       "Review score: 5"; "-----" ]).
Proof. reflexivity. Qed.

(** C8, as stated, fails on cells 40 and 45.  With an index that returns
    no result the answer runs to its end: nothing is raised, the loop
    prints nothing, and the completion is printed.  With a completion
    client that raises [RateLimitError] the caller receives that very
    exception, whose type is not [GenerationFailed]. *)
Lemma empty_results_raise_nothing :
  Query.answer id no_match_search ok_create "Cat food" [] = (inr tt, [ "{}" ])
  ∧ Query.query_cell id no_match_search "Cat food" [] = (inr tt, [])
  ∧ Cell.raised (Query.answer id no_match_search rate_limited_create "Cat food" [])
    = Some (PyExn "RateLimitError" "Error code: 429")
  ∧ exc_type (PyExn "RateLimitError" "Error code: 429") ≠ "GenerationFailed".
Proof. repeat split; by vm_compute. Qed.

(** C8, amended.  The answer defines no error of its own and catches none.
    With an empty result set the query cell finishes normally and prints
    nothing.  The answer raises exactly when iterating the search results
    raises, or else when the completion client raises, and what the caller
    receives is that exception itself. *)
Theorem answer_raises_what_the_clients_raise {Float : Type}
    (float_str : Float → string)
    (search : Query.SearchRequest → list (Query.SearchResult Float) * option pyexn)
    (create : Query.CompletionRequest → pyexn + string)
    (user_query : string) (out : list string) :
  Query.query_cell float_str (λ _, ([], None)) user_query out = (inr tt, out)
  ∧ Cell.raised (Query.answer float_str search create user_query out)
    = match (search (Query.search_request user_query)).2 with
      | Some e => Some e
      | None =>
          match create (Query.completion_request user_query) with
          | inl e => Some e
          | inr _ => None
          end
      end.
Proof.
  split; [done|].
  pose proof (query_cell_raised float_str search user_query out) as Hq.
  pose proof (query_cell_returns float_str search user_query out) as Hret.
  unfold Query.answer, mbind, cell_bind, Cell.bind.
  destruct (Query.query_cell float_str search user_query out) as [[e|[]] out'].
  - unfold Cell.raised in *. simpl in *. by rewrite <- Hq.
  - unfold Cell.raised in Hq. simpl in Hq. rewrite <- Hq.
    apply completion_cell_raised.
Qed.

(** ** What the configuration fixes

    The indexer, the split skill, the embedding skill and the projection
    run inside Azure AI Search; of their behaviour the notebook determines
    only the parameters below. *)

Section ConfigFacts.

Import SearchConfig.

(** The vector field of the index is declared with 1536 dimensions. *)
Lemma vector_field_dimensions :
  (λ f, vector_search_dimensions f.2) <$> list_find (λ f, name f = "vector") fields
  = Some (Some EMBEDDING_LENGTH)
  ∧ EMBEDDING_LENGTH = 1536%nat.
Proof. done. Qed.

(** The configured overlap is shorter than the configured page. *)
Lemma split_skill_overlap_lt_page :
  (page_overlap_length split_skill < maximum_page_length split_skill)%nat.
Proof. unfold split_skill. simpl. lia. Qed.

(** The split skill reads the column that the ingestion loader derives. *)
Lemma split_skill_reads_TextConcat :
  (λ c, "/document/" +:+ c) <$> last Ingestion.insert_columns
  = Some (split_input split_skill).
Proof. done. Qed.

(** Every projected field, and the parent key, is a field of the index;
    the key field [Id] of a chunk document is not among the mappings. *)
Lemma projection_targets_are_fields :
  Forall (λ m, m.1 ∈ name <$> fields) (mappings index_projections)
  ∧ parent_key_field_name index_projections ∈ name <$> fields
  ∧ "Id" ∉ (mappings index_projections).*1.
Proof.
  split; [|split].
  - apply (bool_decide_unpack _). by vm_compute.
  - apply (bool_decide_unpack _). by vm_compute.
  - apply (bool_decide_unpack _). by vm_compute.
Qed.

(** The change-detection column is the one column of the table declared
    [ON UPDATE CURRENT_TIMESTAMP]; the soft-delete column defaults to a
    value other than the marker. *)
Lemma detection_columns :
  filter (λ c, MySQL.col_on_update_current_timestamp c = true) MySQL.foodreview
  = [ MySQL.Column (high_water_mark_column_name change_detection_policy)
        MySQL.DATETIME false MySQL.DefaultCurrentTimestamp true ]
  ∧ filter (λ c, MySQL.col_name c = soft_delete_column_name soft_delete_detection_policy)
      MySQL.foodreview
    = [ MySQL.Column "Deleted" MySQL.INTEGER false (MySQL.DefaultInt 0) false ]
  ∧ soft_delete_marker_value soft_delete_detection_policy = pretty 1.
Proof. by vm_compute. Qed.

End ConfigFacts.

(** * Further properties of the notebook's code *)

(** ** Cells 17 and 19: batches and parameter tuples *)

Section BatchFacts.

Import Ingestion.

Lemma py_range_lookup (stop step i : nat) :
  (0 < step)%nat →
  py_range 0 stop step !! i
  = if decide (step * i < stop)%nat then Some (step * i)%nat else None.
Proof.
  intros Hstep. rewrite py_range_0, list_lookup_fmap.
  pose proof (Nat.div_mod_eq (stop + (step - 1)) step) as Hdiv.
  pose proof (Nat.mod_upper_bound (stop + (step - 1)) step) as Hmod.
  destruct (decide (step * i < stop)%nat) as [Hlt|Hge].
  - rewrite lookup_seq_lt; [simpl; f_equal; lia|].
    destruct (decide (i < (stop + (step - 1)) / step)%nat) as [|Hn]; [done|].
    exfalso. assert ((stop + (step - 1)) / step ≤ i)%nat as Hle by lia.
    apply (Nat.mul_le_mono_l _ _ step) in Hle. lia.
  - rewrite lookup_seq_ge; [done|].
    destruct (decide ((stop + (step - 1)) / step ≤ i)%nat) as [|Hn]; [done|].
    exfalso. assert (S i ≤ (stop + (step - 1)) / step)%nat as Hle by lia.
    apply (Nat.mul_le_mono_l _ _ step) in Hle. lia.
Qed.

Lemma batches_lookup {A} (df : list A) (i : nat) :
  batches df !! i
  = if decide (30 * i < length df)%nat
    then Some (take 30 (drop (30 * i) df)) else None.
Proof.
  unfold batches. rewrite list_lookup_fmap, py_range_lookup by (unfold batch_size; lia).
  unfold batch_size. destruct (decide _); [|done]. simpl.
  by rewrite py_slice_step.
Qed.

End BatchFacts.

(** X1.  Cells 17 and 19 lose, repeat and reorder nothing: the batches,
    put end to end, are the dataframe with its new column, and dropping
    that column gives back the rows read from the CSV file. *)
Theorem batches_keep_every_row (df_all : list Ingestion.Review) :
  concat (Ingestion.batches (Ingestion.add_text_concat df_all))
  = Ingestion.add_text_concat df_all
  ∧ Ingestion.review <$> concat (Ingestion.batches (Ingestion.add_text_concat df_all))
    = df_all.
Proof.
  rewrite concat_batches. split; [done|].
  unfold Ingestion.add_text_concat. rewrite <- list_fmap_compose.
  etransitivity; [|apply list_fmap_id]. by apply list_fmap_ext.
Qed.

(** X2.  The shape of the batches of cell 19: a dataframe of [n] rows is
    cut into [ceil(n / 30)] batches (none for an empty dataframe); batch
    [i] holds the rows from position [30 * i] on, so it is never empty,
    never longer than 30 rows, and only the last batch can be shorter. *)
Theorem batches_shape {A : Type} (df : list A) :
  length (Ingestion.batches df) = ((length df + 29) / 30)%nat
  ∧ (∀ i, Ingestion.batches df !! i
          = if decide (30 * i < length df)%nat
            then Some (take 30 (drop (30 * i) df)) else None)
  ∧ (∀ i batch, Ingestion.batches df !! i = Some batch →
       (0 < length batch ≤ 30)%nat
       ∧ length batch = (30 `min` (length df - 30 * i))%nat
       ∧ ((S i < length (Ingestion.batches df))%nat → length batch = 30%nat)).
Proof.
  assert (length (Ingestion.batches df) = ((length df + 29) / 30)%nat) as Hlen.
  { unfold Ingestion.batches. rewrite length_fmap, py_range_0, length_fmap, length_seq.
    done. }
  split; [done|]. split; [apply batches_lookup|].
  intros i batch. rewrite batches_lookup.
  destruct (decide _) as [Hlt|]; [|done]. intros [= <-].
  rewrite length_take, length_drop. split; [lia|]. split; [done|].
  intros Hnext.
  assert (is_Some (Ingestion.batches df !! S i)) as [b' Hb'].
  { apply lookup_lt_is_Some. lia. }
  rewrite batches_lookup in Hb'. destruct (decide _); [lia|done].
Qed.

Section UploadFacts.

Import Ingestion.

Context {DB : Type} (executemany : list string → list (list pyval) → DB → pyexn + DB).

(** A call that raises leaves the database as it found it. *)
Lemma execute_batch_run (batch : list Row) (st : upload_state) :
  match executemany insert_columns (row_tuple <$> batch) (db st) with
  | inl e =>
      (execute_batch executemany batch st).1 = inl e
      ∧ db (execute_batch executemany batch st).2 = db st
  | inr db' =>
      (execute_batch executemany batch st).1 = inr tt
      ∧ db (execute_batch executemany batch st).2 = db'
  end.
Proof. unfold execute_batch. by destruct (executemany _ _ _). Qed.

Lemma for_each_batch_prefix (bs : list (list Row)) (st : upload_state) :
  ∃ k, (k ≤ length bs)%nat
       ∧ sent (Cell.for_each bs (execute_batch executemany) st).2
         = sent st ++ (row_tuple <$> concat (take k bs))
       ∧ match Cell.raised (Cell.for_each bs (execute_batch executemany) st) with
         | None => k = length bs
         | Some e =>
             ∃ batch, (0 < k)%nat
                      ∧ bs !! (k - 1)%nat = Some batch
                      ∧ executemany insert_columns (row_tuple <$> batch)
                          (db (Cell.for_each bs (execute_batch executemany) st).2)
                        = inl e
         end.
Proof.
  revert st. induction bs as [|b bs IH]; intros st.
  - exists 0%nat. simpl. rewrite app_nil_r. by repeat split.
  - rewrite for_each_cons. pose proof (execute_batch_sent executemany b st) as Hb.
    pose proof (execute_batch_run b st) as Hrun.
    destruct (executemany insert_columns (row_tuple <$> b) (db st)) as [e|db'] eqn:Hexec;
      destruct Hrun as [Hres Hdb];
      destruct (execute_batch executemany b st) as [[e'|[]] st'];
      simpl in Hb, Hres, Hdb; simplify_eq.
    + exists 1%nat. simpl. rewrite app_nil_r. repeat split; [lia|done|].
      exists b. unfold Cell.raised. simpl. rewrite Hdb. repeat split; [lia|done..].
    + destruct (IH st') as (k & Hk & Hsent & Hcase).
      exists (S k). simpl. rewrite Hsent, Hb, fmap_app, app_assoc.
      split; [lia|]. split; [done|].
      destruct (Cell.raised _) as [e|]; [|lia].
      destruct Hcase as (batch & Hpos & Hbatch & Hcall). exists batch.
      repeat split; [lia| |done].
      rewrite Nat.sub_0_r. destruct k; [lia|]. simpl in Hbatch.
      by rewrite Nat.sub_0_r in Hbatch.
Qed.

(** The first [k] batches, put end to end, are the first [30 * k] rows. *)
Lemma concat_take_batches {A} (l : list A) (k : nat) :
  (k ≤ length (batches l))%nat → concat (take k (batches l)) = take (30 * k) l.
Proof.
  intros Hk. unfold batches in *. rewrite py_range_0 in *.
  rewrite <- list_fmap_compose in *. rewrite length_fmap, length_seq in Hk.
  rewrite <- fmap_take, take_seq, Nat.min_l by done.
  etransitivity; [|apply (concat_pieces 30 k (take (30 * k) l))].
  - f_equal. apply list_fmap_ext. intros i j [-> Hj]%lookup_seq.
    unfold compose. rewrite Nat.add_0_l, py_slice_step. unfold batch_size.
    replace (30 * k)%nat with (i * 30 + (30 * k - i * 30))%nat by lia.
    rewrite <- take_drop_commute, take_take. f_equal. lia.
  - rewrite length_take. lia.
Qed.

End UploadFacts.


Example float_repr_examples :
  float_repr 4 = "4.0" ∧ float_repr (-4) = "-4.0" ∧ float_repr 0 = "0.0"
  ∧ float_repr 9007199254740993 = "9007199254740992.0"
  ∧ float_repr 10000000000000000 = "1e+16"
  ∧ float_repr 1234567890123456789 = "1.2345678901234568e+18"
  ∧ float_repr 9223372036854775807 = "9.223372036854776e+18"
  ∧ float_repr 99999999999999999 = "1e+17".
Proof. repeat split; by vm_compute. Qed.

(** C10, as stated, fails on a frame whose columns are all numeric.  With
    the summary 4 and the review text 6 the tuple sent to the [INSERT]
    carries 4 and 6 and the text ["Summary: 4.0 | Review: 6.0"], which is
    not ["Summary: " + "4" + " | Review: " + "6"]; and the same summary and
    text next to a product id that is a string give
    ["Summary: 4 | Review: 6"], so the other columns have a say. *)
Lemma numeric_frame_TextConcat :
  Ingestion.sent
    (Ingestion.upload recording_executemany numeric_df
       {| Ingestion.db := []; Ingestion.sent := [] |}).2
  = [ [ PInt 1; PInt 7; PInt 3; PNaN; PInt 1; PInt 1; PInt 5; PInt 1303862400;
        PInt 4; PInt 6; PStr "Summary: 4.0 | Review: 6.0" ] ]
  ∧ "Summary: " +:+ py_format (PInt 4) +:+ " | Review: " +:+ py_format (PInt 6)
    = "Summary: 4 | Review: 6"
  ∧ "Summary: 4.0 | Review: 6.0" ≠ "Summary: 4 | Review: 6"
  ∧ Ingestion.sent
      (Ingestion.upload recording_executemany mixed_df
         {| Ingestion.db := []; Ingestion.sent := [] |}).2
    = [ [ PInt 1; PStr "B001"; PStr "A1"; PNaN; PInt 1; PInt 1; PInt 5;
          PInt 1303862400; PInt 4; PInt 6; PStr "Summary: 4 | Review: 6" ] ].
Proof. repeat split; by vm_compute. Qed.

(** C10, amended.  What the loader sends to the [INSERT] is, for the
    first [n] rows of the dataframe in order (all of them when no
    [executemany] raised), the ten values of the row followed by the text
    ["Summary: {s} | Review: {t}"], where [s] and [t] are the summary and
    the review text as the row Series of [df_all.apply] holds them.  When
    the two are strings the text is exactly
    ["Summary: " + Summary + " | Review: " + Text]; so it is whenever the
    frame is not a [float64] frame, with the values formatted as an
    f-string does; and within one upload rows with equal summary and
    review text get equal texts. *)
Theorem ingested_TextConcat {DB : Type}
    (executemany : list string → list (list pyval) → DB → pyexn + DB)
    (df_all : list Ingestion.Review) (db0 : DB) :
  let text := λ row : Ingestion.Review,
    "Summary: " +:+ py_format (Ingestion.series_value df_all (Ingestion.Summary row))
      +:+ " | Review: "
      +:+ py_format (Ingestion.series_value df_all (Ingestion.Text row)) in
  let tuple := λ row : Ingestion.Review,
    [ Ingestion.Id row; Ingestion.ProductId row; Ingestion.UserId row;
      Ingestion.ProfileName row; Ingestion.HelpfulnessNumerator row;
      Ingestion.HelpfulnessDenominator row; Ingestion.Score row;
      Ingestion.Time row; Ingestion.Summary row; Ingestion.Text row;
      PStr (text row) ] in
  (∃ n, Ingestion.sent
          (Ingestion.upload executemany df_all
             {| Ingestion.db := db0; Ingestion.sent := [] |}).2
        = tuple <$> take n df_all)
  ∧ (Cell.raised (Ingestion.upload executemany df_all
                    {| Ingestion.db := db0; Ingestion.sent := [] |}) = None →
     Ingestion.sent
       (Ingestion.upload executemany df_all
          {| Ingestion.db := db0; Ingestion.sent := [] |}).2
     = tuple <$> df_all)
  ∧ (∀ row s x,
       Ingestion.Summary row = PStr s → Ingestion.Text row = PStr x →
       text row = "Summary: " +:+ s +:+ " | Review: " +:+ x)
  ∧ (Ingestion.float_frame df_all = false →
     ∀ row, text row
            = "Summary: " +:+ py_format (Ingestion.Summary row)
                +:+ " | Review: " +:+ py_format (Ingestion.Text row))
  ∧ (∀ row row',
       Ingestion.Summary row = Ingestion.Summary row' →
       Ingestion.Text row = Ingestion.Text row' →
       text row = text row').
Proof.
  intros text tuple.
  destruct (for_each_batch_prefix executemany
              (Ingestion.batches (Ingestion.add_text_concat df_all))
              {| Ingestion.db := db0; Ingestion.sent := [] |})
    as (k & Hk & Hsent & Hcase).
  fold (Ingestion.upload executemany df_all) in Hsent, Hcase.
  simpl in Hsent. rewrite concat_take_batches in Hsent by done.
  unfold Ingestion.add_text_concat in Hsent.
  rewrite <- fmap_take, <- list_fmap_compose in Hsent.
  split; [by exists (30 * k)%nat|]. split.
  - intros Hnone. rewrite Hnone in Hcase. rewrite Hsent.
    f_equal. apply take_ge. subst k.
    pose proof (concat_take_batches (Ingestion.add_text_concat df_all)
                  (length (Ingestion.batches (Ingestion.add_text_concat df_all)))
                  (le_n _)) as Hall.
    rewrite firstn_all, concat_batches in Hall.
    apply (f_equal length) in Hall. rewrite length_take in Hall.
    assert (length (Ingestion.add_text_concat df_all) = length df_all) as Hlen
      by apply length_fmap.
    lia.
  - split; [|split].
    + intros row s x Hs Hx. unfold text, Ingestion.series_value.
      rewrite Hs, Hx. by destruct (Ingestion.float_frame df_all).
    + intros Hframe row. unfold text, Ingestion.series_value. by rewrite Hframe.
    + intros row row' Hs Hx. unfold text. by rewrite Hs, Hx.
Qed.

Section StringFacts.

Lemma string_length_app (s1 s2 : string) :
  String.length (s1 +:+ s2) = (String.length s1 + String.length s2)%nat.
Proof. induction s1 as [|a s1 IH]; simpl; [done|]. by rewrite IH. Qed.

(** A common ending can be cancelled. *)
Lemma string_app_inj_r (s1 s2 x : string) : s1 +:+ x = s2 +:+ x → s1 = s2.
Proof.
  revert s2. induction s1 as [|a s1 IH]; intros [|b s2] Heq; simpl in Heq.
  - done.
  - apply (f_equal String.length) in Heq.
    rewrite !string_length_app in Heq. simpl in Heq. lia.
  - apply (f_equal String.length) in Heq.
    rewrite !string_length_app in Heq. simpl in Heq. lia.
  - injection Heq as -> Heq. f_equal. by apply IH.
Qed.

(** A common beginning can be cancelled. *)
Lemma string_app_inj_l (x s1 s2 : string) : x +:+ s1 = x +:+ s2 → s1 = s2.
Proof. induction x as [|a x IH]; simpl; [done|]. intros [= ?]. auto. Qed.

End StringFacts.

(** X5.  What the format of cell 17 lets a reader recover.  For two rows
    with the same [TextConcat], the formatted summaries agree exactly when
    the formatted review texts agree; but the separator is not escaped, so
    rows that differ in both fields can share one [TextConcat], and a
    missing field cannot be told from the string ["nan"]. *)
Theorem text_concat_ambiguity :
  (∀ r1 r2 : Ingestion.Review,
     Ingestion.text_concat r1 = Ingestion.text_concat r2 →
     (py_format (Ingestion.Summary r1) = py_format (Ingestion.Summary r2)
      ↔ py_format (Ingestion.Text r1) = py_format (Ingestion.Text r2)))
  ∧ (∀ id, Ingestion.text_concat (sample_review id (PStr "a | Review: b") (PStr "c"))
           = Ingestion.text_concat (sample_review id (PStr "a") (PStr "b | Review: c")))
  ∧ (∀ id text, Ingestion.text_concat (sample_review id PNaN text)
                = Ingestion.text_concat (sample_review id (PStr "nan") text)).
Proof.
  split; [|done]. intros r1 r2. unfold Ingestion.text_concat. intros Heq.
  apply string_app_inj_l in Heq. split; intros Hsame.
  - rewrite Hsame in Heq. by do 2 apply string_app_inj_l in Heq.
  - rewrite Hsame in Heq.
    by apply (string_app_inj_r _ _ (" | Review: " +:+ py_format (Ingestion.Text r2))).
Qed.

(** ** Cell 21: the row count *)

Section CountFacts.

Import CountCheck.

Context {Cur : Type}.
Variable execute : string → Cur → pyexn + Cur.
Variable fetchall : Cur → pyexn + (list (list Z) * Cur).
Variable is_Exception : pyexn → bool.

Lemma print_rows (rows : list (list Z)) (s : state Cur) :
  Cell.for_each rows (λ row, print (tuple_repr row)) s
  = (inr tt, {| cur := cur s; out := out s ++ (tuple_repr <$> rows) |}).
Proof.
  revert s. induction rows as [|row rows IH]; intros s.
  - simpl. rewrite app_nil_r. by destruct s.
  - rewrite for_each_cons. unfold print at 1, Cell.modify. rewrite IH. simpl.
    by rewrite <- app_assoc.
Qed.

End CountFacts.

Example tuple_repr_examples :
  CountCheck.tuple_repr [99] = "(99,)"
  ∧ CountCheck.tuple_repr [] = "()"
  ∧ CountCheck.tuple_repr [1; -2; 3] = "(1, -2, 3)"
  ∧ CountCheck.select_count = "SELECT count(Id) FROM foodreview;".
Proof. repeat split; by vm_compute. Qed.

(** X6.  Cell 21 swallows database errors.  If [execute] or [fetchall]
    raises an instance of [Exception], the cell finishes normally and its
    only output is the line ["Error executing SELECT statement: ..."] with
    the message of that exception; if both succeed, it prints one line per
    fetched row, in order, and finishes normally.  The only exceptions that
    leave the cell are those [except Exception] does not catch, and then
    nothing has been printed. *)
Theorem count_cell_reports {Cur : Type}
    (execute : string → Cur → pyexn + Cur)
    (fetchall : Cur → pyexn + (list (list Z) * Cur))
    (is_Exception : pyexn → bool)
    (s : CountCheck.state Cur) :
  CountCheck.count_cell execute fetchall is_Exception s
  = match execute CountCheck.select_count (CountCheck.cur s) with
    | inl e =>
        if is_Exception e
        then (inr tt,
              {| CountCheck.cur := CountCheck.cur s;
                 CountCheck.out :=
                   CountCheck.out s
                     ++ [ "Error executing SELECT statement: " +:+ exc_msg e ] |})
        else (inl e, s)
    | inr c =>
        match fetchall c with
        | inl e =>
            if is_Exception e
            then (inr tt,
                  {| CountCheck.cur := c;
                     CountCheck.out :=
                       CountCheck.out s
                         ++ [ "Error executing SELECT statement: " +:+ exc_msg e ] |})
            else (inl e, {| CountCheck.cur := c; CountCheck.out := CountCheck.out s |})
        | inr (rows, c') =>
            (inr tt,
             {| CountCheck.cur := c';
                CountCheck.out := CountCheck.out s ++ (CountCheck.tuple_repr <$> rows) |})
        end
    end.
Proof.
  unfold CountCheck.count_cell, CountCheck.try_except, mbind, cell_bind, Cell.bind,
    CountCheck.cursor_execute, CountCheck.cursor_fetchall.
  destruct (execute _ _) as [e|c]; simpl.
  - by destruct (is_Exception e).
  - destruct (fetchall c) as [e|[rows c']]; simpl.
    + by destruct (is_Exception e).
    + by rewrite print_rows.
Qed.

(** ** Cell 12: dropping and creating the table *)

Example create_statement_text :
  String.length TableSetup.create_statement = 673%nat
  ∧ TableSetup.drop_statement = "DROP TABLE IF EXISTS foodreview;".
Proof. split; by vm_compute. Qed.

(** X7.  Cell 12 reports a step only after the server has accepted it,
    and stops at the first statement that raises: when the [DROP] raises,
    nothing is printed and the [CREATE] is not sent; when the [CREATE]
    raises, only the first line has been printed and the database is as
    the [DROP] left it; when both are accepted the two lines are printed
    in order. *)
Theorem create_cell_steps {DB : Type} (execute : string → DB → pyexn + DB)
    (s : TableSetup.session DB) :
  TableSetup.create_cell execute s
  = match execute TableSetup.drop_statement (TableSetup.database s) with
    | inl e => (inl e, s)
    | inr dropped =>
        match execute TableSetup.create_statement dropped with
        | inl e =>
            (inl e,
             {| TableSetup.database := dropped;
                TableSetup.stdout :=
                  TableSetup.stdout s ++ [ "Finished dropping table (if existed)" ] |})
        | inr created =>
            (inr tt,
             {| TableSetup.database := created;
                TableSetup.stdout :=
                  TableSetup.stdout s
                    ++ [ "Finished dropping table (if existed)";
                         "Finished creating table" ] |})
        end
    end.
Proof.
  unfold TableSetup.create_cell, mbind, cell_bind, Cell.bind,
    TableSetup.cursor_execute, TableSetup.print, Cell.modify.
  destruct (execute TableSetup.drop_statement _) as [e|dropped]; simpl; [done|].
  destruct (execute TableSetup.create_statement dropped) as [e|created]; simpl; [done|].
  by rewrite <- app_assoc.
Qed.

(** ** Cells 26, 31 and 33: names and the connection string *)

Section ResourceFacts.

Import Resources.

(** Two strings without a semicolon that are each followed by one are
    found again by cutting at the first semicolon. *)
Lemma cut_at_semicolon (a b x y : string) :
  semicolon_free a = true → semicolon_free b = true →
  a +:+ String ";" x = b +:+ String ";" y → a = b ∧ x = y.
Proof.
  revert b. induction a as [|c a IH]; intros [|d b] Ha Hb Heq; simpl in *.
  - by injection Heq.
  - injection Heq as <- _. apply andb_true_iff in Hb as [Hd _].
    by rewrite Ascii.eqb_refl in Hd.
  - injection Heq as -> _. apply andb_true_iff in Ha as [Hc _].
    by rewrite Ascii.eqb_refl in Hc.
  - injection Heq as -> Heq.
    apply andb_true_iff in Ha as [_ Ha]. apply andb_true_iff in Hb as [_ Hb].
    destruct (IH b Ha Hb Heq) as [-> ->]. done.
Qed.

End ResourceFacts.

(** X8.  The three resource names derived from the index name never
    coincide, and each of them determines the index name it was derived
    from: resources created for different index names cannot overwrite one
    another. *)
Theorem resource_names_distinct (index_name other : option string) :
  Resources.data_source_name index_name ≠ Resources.skillset_name index_name
  ∧ Resources.data_source_name index_name ≠ Resources.indexer_name index_name
  ∧ Resources.skillset_name index_name ≠ Resources.indexer_name index_name
  ∧ (Resources.data_source_name index_name = Resources.data_source_name other
     ↔ Resources.env_format index_name = Resources.env_format other)
  ∧ (Resources.skillset_name index_name = Resources.skillset_name other
     ↔ Resources.env_format index_name = Resources.env_format other)
  ∧ (Resources.indexer_name index_name = Resources.indexer_name other
     ↔ Resources.env_format index_name = Resources.env_format other).
Proof.
  unfold Resources.data_source_name, Resources.skillset_name, Resources.indexer_name.
  repeat split;
    try (intros Heq; apply string_app_inj_l in Heq; discriminate);
    try (intros Heq; by apply string_app_inj_r in Heq);
    by intros ->.
Qed.

(** X9.  The connection string of cell 26 is unambiguous as long as the
    server, the database and the user name, as the f-string shows them,
    hold no semicolon: two sets of settings with the same connection
    string are then shown the same in all four places, and those of them
    that are present on both sides (not [None]) are equal.  A missing
    setting is not told from the string ["None"]. *)
Theorem ds_conn_str_determines_settings
    (server database username password : option string)
    (server' database' username' password' : option string) :
  Resources.semicolon_free (Resources.env_format server) = true →
  Resources.semicolon_free (Resources.env_format database) = true →
  Resources.semicolon_free (Resources.env_format username) = true →
  Resources.semicolon_free (Resources.env_format server') = true →
  Resources.semicolon_free (Resources.env_format database') = true →
  Resources.semicolon_free (Resources.env_format username') = true →
  Resources.ds_conn_str server database username password
  = Resources.ds_conn_str server' database' username' password' →
  (Resources.env_format server = Resources.env_format server'
   ∧ Resources.env_format database = Resources.env_format database'
   ∧ Resources.env_format username = Resources.env_format username'
   ∧ Resources.env_format password = Resources.env_format password')
  ∧ (is_Some server → is_Some server' → server = server')
  ∧ (is_Some database → is_Some database' → database = database')
  ∧ (is_Some username → is_Some username' → username = username')
  ∧ (is_Some password → is_Some password' → password = password')
  ∧ Resources.ds_conn_str server database username None
    = Resources.ds_conn_str server database username (Some "None").
Proof.
  unfold Resources.ds_conn_str. intros Hs Hd Hu Hs' Hd' Hu' Heq.
  apply (string_app_inj_l "Server=") in Heq.
  apply cut_at_semicolon in Heq as [Hserver Heq]; [|done..].
  apply (string_app_inj_l " Port=3306; Database=") in Heq.
  apply cut_at_semicolon in Heq as [Hdatabase Heq]; [|done..].
  apply (string_app_inj_l " Uid=") in Heq.
  apply cut_at_semicolon in Heq as [Husername Heq]; [|done..].
  apply (string_app_inj_l " Pwd=") in Heq.
  apply string_app_inj_r in Heq.
  split; [done|].
  repeat split; try done; intros [a ->] [b ->]; simpl in *; congruence.
Qed.

Lemma ds_conn_str_determines_settings_witness :
  (Resources.env_format (Some "srv.mysql.database.azure.com")
   = Resources.env_format (Some "srv.mysql.database.azure.com")
   ∧ Resources.env_format (Some "reviews") = Resources.env_format (Some "reviews")
   ∧ Resources.env_format (Some "admin") = Resources.env_format (Some "admin")
   ∧ Resources.env_format None = Resources.env_format (Some "None"))
  ∧ (is_Some (Some "srv.mysql.database.azure.com") →
     is_Some (Some "srv.mysql.database.azure.com") →
     Some "srv.mysql.database.azure.com" = Some "srv.mysql.database.azure.com")
  ∧ (is_Some (Some "reviews") → is_Some (Some "reviews") →
     Some "reviews" = Some "reviews")
  ∧ (is_Some (Some "admin") → is_Some (Some "admin") → Some "admin" = Some "admin")
  ∧ (is_Some (None : option string) → is_Some (Some "None") → None = Some "None")
  ∧ Resources.ds_conn_str (Some "srv.mysql.database.azure.com") (Some "reviews")
      (Some "admin") None
    = Resources.ds_conn_str (Some "srv.mysql.database.azure.com") (Some "reviews")
        (Some "admin") (Some "None").
Proof.
  apply (ds_conn_str_determines_settings
           (Some "srv.mysql.database.azure.com") (Some "reviews") (Some "admin") None
           (Some "srv.mysql.database.azure.com") (Some "reviews") (Some "admin")
           (Some "None"));
    reflexivity.
Defined.

(** ** Cell 12: rows of [foodreview] under [INSERT] and [UPDATE] *)

Section StoreFacts.

Import MySQL TableSetup.
Implicit Types (r : gmap string value) (t : gmap Z (gmap string value)).
Implicit Types (given sets : list (string * value)).

(** Every column of a new row holds the value given for it, or else its
    default. *)
Lemma new_row_lookup now given :
  Forall (λ c, new_row now given !! col_name c
               = Some (default (default_value now c)
                         (list_to_map (M := gmap string value) given !! col_name c)))
         foodreview.
Proof. repeat constructor. Qed.

Lemma new_row_Id now given :
  new_row now given !! "Id"
  = Some (default NULL (list_to_map (M := gmap string value) given !! "Id")).
Proof. reflexivity. Qed.



Lemma key_of_Some r k : key_of r = Some k ↔ r !! "Id" = Some (VInt k).
Proof.
  unfold key_of, primary_key. destruct (r !! "Id") as [[]|]; naive_solver.
Qed.

Lemma update_row_Id_assigned now r k :
  update_row now [ ("Id", VInt k) ] r !! "Id" = Some (VInt k).
Proof.
  rewrite update_row_unfold. unfold assign. simpl.
  case_match; [rewrite lookup_insert_ne by done|]; by rewrite lookup_insert_eq.
Qed.

Lemma other_column_changed_same (c : string) r : other_column_changed c r r = false.
Proof.
  unfold other_column_changed. apply not_true_is_false. intros Hex.
  apply existsb_exists in Hex as (c' & _ & Hc').
  apply andb_true_iff in Hc' as [_ Hc']. by apply bool_decide_eq_true_1 in Hc'.
Qed.

End StoreFacts.



(** X12.  The primary key is enforced.  With a row stored under some
    [Id]: an [INSERT] whose values the server stores as given and whose
    row carries that [Id], and an [UPDATE] that sets the [Id] of another
    row to it, are both refused with the connector's [IntegrityError]. *)
Theorem duplicate_Id_refused
    (now : Z) (given : list (string * MySQL.value)) (k k' : Z)
    (r r' : gmap string MySQL.value) (t : gmap Z (gmap string MySQL.value)) :
  t !! k = Some r →
  (MySQL.known_columns given.*1 = true →
   NoDup given.*1 →
   MySQL.fields_verdict given = MySQL.Store →
   MySQL.key_of (MySQL.new_row now given) = Some k →
   MySQL.sql_insert now given t
   = Some (inl (MySQL.integrity_error "Duplicate entry for key PRIMARY")))
  ∧ (t !! k' = Some r' → k' ≠ k →
     MySQL.fields_verdict [ ("Id", MySQL.VInt k) ] = MySQL.Store →
     MySQL.sql_update now [ ("Id", MySQL.VInt k) ] k' t
     = Some (inl (MySQL.integrity_error "Duplicate entry for key PRIMARY"))).
Proof.
  intros Hk. split.
  - intros Hknown Hnodup Hstore Hkey. unfold MySQL.sql_insert.
    rewrite Hknown, bool_decide_eq_true_2, Hstore by done. simpl.
    assert (MySQL.missing_required given.*1 = false) as ->.
    { unfold MySQL.missing_required. simpl. rewrite orb_false_r.
      apply negb_false_iff, bool_decide_eq_true_2.
      destruct (decide ("Id" ∈ given.*1)) as [|Hnin]; [done|].
      apply key_of_Some in Hkey. rewrite new_row_Id in Hkey.
      apply not_elem_of_list_to_map_1 in Hnin. by rewrite Hnin in Hkey. }
    by rewrite Hkey, Hk.
  - intros Hk' Hne Hstore. unfold MySQL.sql_update.
    assert (MySQL.key_of (MySQL.update_row now [ ("Id", MySQL.VInt k) ] r') = Some k)
      as Hkey by apply key_of_Some, update_row_Id_assigned.
    change (MySQL.known_columns [ ("Id", MySQL.VInt k) ].*1) with true. cbv iota.
    simpl negb. cbv iota. rewrite Hk', Hstore. cbv zeta. rewrite Hkey.
    rewrite decide_False by done. by rewrite Hk.
Qed.

Lemma duplicate_Id_refused_witness :
  MySQL.sql_insert 101 [ ("Id", MySQL.VInt 1); ("Score", MySQL.VInt 3) ] sample_table
  = Some (inl (MySQL.integrity_error "Duplicate entry for key PRIMARY"))
  ∧ MySQL.sql_update 101 [ ("Id", MySQL.VInt 1) ] 2 sample_table
    = Some (inl (MySQL.integrity_error "Duplicate entry for key PRIMARY")).
Proof.
  destruct (duplicate_Id_refused 101 [ ("Id", MySQL.VInt 1); ("Score", MySQL.VInt 3) ]
              1 2 sample_row sample_row2 sample_table) as [Hinsert Hupdate].
  - reflexivity.
  - split.
    + apply Hinsert; [reflexivity|
                      apply (bool_decide_unpack _); vm_compute; exact I|
                      reflexivity..].
    + apply Hupdate; [reflexivity|lia|reflexivity].
Defined.

(** X13.  An [INSERT] in the shape of cell 19, with eleven values for the
    eleven named columns that the server stores as given (each of its
    column's type and within its range), an integer [Id] and no row under
    that [Id] yet, is accepted; the stored row holds the eleven values,
    and the three columns the statement does not name get their defaults:
    [Created] and [LastUpdated] the time of the statement, [Deleted] zero
    (not the soft-delete marker). *)
Theorem insert_as_in_cell_19
    (now k : Z) (vs : list MySQL.value) (t : gmap Z (gmap string MySQL.value)) :
  length vs = 11%nat →
  MySQL.fields_verdict (zip Ingestion.insert_columns vs) = MySQL.Store →
  vs !! 0%nat = Some (MySQL.VInt k) →
  t !! k = None →
  ∃ r, MySQL.sql_insert now (zip Ingestion.insert_columns vs) t
       = Some (inr (<[ k := r ]> t))
       ∧ (∀ i c, Ingestion.insert_columns !! i = Some c → r !! c = vs !! i)
       ∧ r !! "Created" = Some (MySQL.VDatetime now)
       ∧ r !! "LastUpdated" = Some (MySQL.VDatetime now)
       ∧ r !! "Deleted" = Some (MySQL.VInt 0)
       ∧ r !! "Deleted" ≠ Some (MySQL.VInt 1).
Proof.
  intros Hlen Hstore Hid Hfree.
  do 11 (destruct vs as [|? vs]; [discriminate Hlen|]).
  destruct vs; [|discriminate Hlen].
  simpl in Hid. injection Hid as ->.
  eexists. split.
  { unfold MySQL.sql_insert. rewrite Hstore.
    match goal with
    | |- context [MySQL.new_row now ?g] =>
        assert (MySQL.key_of (MySQL.new_row now g) = Some k) as Hkey by reflexivity;
        assert (MySQL.known_columns g.*1 = true) as -> by reflexivity;
        assert (bool_decide (NoDup g.*1) = true) as -> by (by vm_compute);
        assert (MySQL.missing_required g.*1 = false) as -> by reflexivity
    end.
    cbv zeta. simpl negb. cbv iota. rewrite Hkey, Hfree. reflexivity. }
  split; [|done].
  intros i c Hc.
  do 11 (destruct i as [|i]; [injection Hc as <-; reflexivity|]).
  discriminate Hc.
Qed.

Lemma insert_as_in_cell_19_witness :
  ∃ r, MySQL.sql_insert 100
         (zip Ingestion.insert_columns
            [ MySQL.VInt 3; MySQL.VText "B001"; MySQL.VText "A1"; MySQL.VText "Jo";
              MySQL.VInt 1; MySQL.VInt 1; MySQL.VInt 5; MySQL.VInt 1303862400;
              MySQL.VText "Great!"; MySQL.VText "My cat loved it.";
              MySQL.VText "Summary: Great! | Review: My cat loved it." ])
         sample_table
       = Some (inr (<[ 3 := r ]> sample_table))
       ∧ (∀ i c, Ingestion.insert_columns !! i = Some c →
            r !! c
            = [ MySQL.VInt 3; MySQL.VText "B001"; MySQL.VText "A1"; MySQL.VText "Jo";
                MySQL.VInt 1; MySQL.VInt 1; MySQL.VInt 5; MySQL.VInt 1303862400;
                MySQL.VText "Great!"; MySQL.VText "My cat loved it.";
                MySQL.VText "Summary: Great! | Review: My cat loved it." ] !! i)
       ∧ r !! "Created" = Some (MySQL.VDatetime 100)
       ∧ r !! "LastUpdated" = Some (MySQL.VDatetime 100)
       ∧ r !! "Deleted" = Some (MySQL.VInt 0)
       ∧ r !! "Deleted" ≠ Some (MySQL.VInt 1).
Proof.
  apply (insert_as_in_cell_19 100 3); reflexivity.
Defined.

(** X14.  Soft deletion is seen by change detection.  Setting [Deleted]
    to 1 on a row where it is not 1 yet stores the marker, moves
    [LastUpdated] to the time of the statement and leaves every other
    column alone; repeating the statement later changes nothing, so the
    timestamp of the deletion is kept. *)
Theorem soft_delete_is_a_change
    (now later : Z) (r : gmap string MySQL.value) :
  r !! "Deleted" ≠ Some (MySQL.VInt 1) →
  MySQL.update_row now [ ("Deleted", MySQL.VInt 1) ] r !! "Deleted"
  = Some (MySQL.VInt 1)
  ∧ MySQL.last_updated (MySQL.update_row now [ ("Deleted", MySQL.VInt 1) ] r)
    = Some now
  ∧ (∀ c : string, c ≠ "Deleted" → c ≠ "LastUpdated" →
       MySQL.update_row now [ ("Deleted", MySQL.VInt 1) ] r !! c = r !! c)
  ∧ MySQL.update_row later [ ("Deleted", MySQL.VInt 1) ]
      (MySQL.update_row now [ ("Deleted", MySQL.VInt 1) ] r)
    = MySQL.update_row now [ ("Deleted", MySQL.VInt 1) ] r.
Proof.
  intros Hlive.
  assert (MySQL.other_column_changed "LastUpdated" r
            (MySQL.assign [ ("Deleted", MySQL.VInt 1) ] r) = true) as Hch.
  { unfold MySQL.other_column_changed. apply existsb_exists. exists "Deleted".
    split; [apply list_elem_of_In; by apply (bool_decide_unpack _)|].
    apply andb_true_iff. split; [done|]. apply bool_decide_eq_true_2.
    unfold MySQL.assign. simpl. rewrite lookup_insert_eq. congruence. }
  assert (MySQL.update_row now [ ("Deleted", MySQL.VInt 1) ] r
          = <[ "LastUpdated" := MySQL.VDatetime now ]>
              (<[ "Deleted" := MySQL.VInt 1 ]> r)) as Hrow.
  { rewrite update_row_unfold, Hch. reflexivity. }
  split; [|split; [|split]].
  - rewrite Hrow, lookup_insert_ne by done. by rewrite lookup_insert_eq.
  - by apply update_row_stamped; [apply (bool_decide_unpack _)|].
  - intros c Hd Hl. apply update_row_keeps_unassigned; [done|].
    simpl. by intros ->%list_elem_of_singleton.
  - rewrite update_row_unfold.
    assert (MySQL.assign [ ("Deleted", MySQL.VInt 1) ]
              (MySQL.update_row now [ ("Deleted", MySQL.VInt 1) ] r)
            = MySQL.update_row now [ ("Deleted", MySQL.VInt 1) ] r) as ->.
    { unfold MySQL.assign. simpl. apply insert_id.
      rewrite Hrow, lookup_insert_ne by done. by rewrite lookup_insert_eq. }
    by rewrite other_column_changed_same, andb_false_r.
Qed.

Lemma soft_delete_is_a_change_witness :
  MySQL.update_row 200 [ ("Deleted", MySQL.VInt 1) ] sample_row !! "Deleted"
  = Some (MySQL.VInt 1)
  ∧ MySQL.last_updated (MySQL.update_row 200 [ ("Deleted", MySQL.VInt 1) ] sample_row)
    = Some 200
  ∧ (∀ c : string, c ≠ "Deleted" → c ≠ "LastUpdated" →
       MySQL.update_row 200 [ ("Deleted", MySQL.VInt 1) ] sample_row !! c
       = sample_row !! c)
  ∧ MySQL.update_row 300 [ ("Deleted", MySQL.VInt 1) ]
      (MySQL.update_row 200 [ ("Deleted", MySQL.VInt 1) ] sample_row)
    = MySQL.update_row 200 [ ("Deleted", MySQL.VInt 1) ] sample_row.
Proof.
  apply (soft_delete_is_a_change 200 300 sample_row).
  intros [=].
Defined.

(** ** Cells 40 and 45: what is printed *)

Section OutputFacts.

Import Query QueryOutput.

Context {Float : Type} (float_str : Float → string).

Lemma print_result_lines (result : SearchResult Float) (out : list string) :
  print_result float_str result out = (inr tt, out ++ result_lines float_str result).
Proof.
  unfold print_result, print, Cell.modify, mbind, cell_bind, Cell.bind. cbn.
  by rewrite <- !app_assoc.
Qed.

Lemma print_results_lines (results : list (SearchResult Float)) (out : list string) :
  Cell.for_each results (print_result float_str) out
  = (inr tt, out ++ concat (result_lines float_str <$> results)).
Proof.
  revert out. induction results as [|result results IH]; intros out.
  - simpl. by rewrite app_nil_r.
  - rewrite for_each_cons, print_result_lines, IH, fmap_cons. simpl concat.
    by rewrite <- !app_assoc.
Qed.

Lemma query_cell_run
    (search : SearchRequest → list (SearchResult Float) * option pyexn)
    (user_query : string) (out : list string) :
  query_cell float_str search user_query out
  = (match (search (search_request user_query)).2 with
     | Some e => inl e
     | None => inr tt
     end,
     out ++ concat (result_lines float_str <$> (search (search_request user_query)).1)).
Proof.
  unfold query_cell, mbind, cell_bind, Cell.bind. rewrite print_results_lines.
  by destruct (search (search_request user_query)).2.
Qed.

End OutputFacts.

(** X16.  Cell 40 prints nine lines for every result the iterator
    yields, in the order yielded, after whatever was printed before, and
    nothing else; results printed before the iterator raises stay
    printed, and the exception leaves the cell after them. *)
Theorem query_cell_output {Float : Type} (float_str : Float → string)
    (search : Query.SearchRequest → list (Query.SearchResult Float) * option pyexn)
    (user_query : string) (out : list string) :
  Query.query_cell float_str search user_query out
  = (match (search (Query.search_request user_query)).2 with
     | Some e => inl e
     | None => inr tt
     end,
     out ++ concat (QueryOutput.result_lines float_str
                      <$> (search (Query.search_request user_query)).1))
  ∧ length (concat (QueryOutput.result_lines float_str
                      <$> (search (Query.search_request user_query)).1))
    = (9 * length (search (Query.search_request user_query)).1)%nat.
Proof.
  split; [apply query_cell_run|].
  induction (search (Query.search_request user_query)).1 as [|r rs IH]; [done|].
  rewrite fmap_cons. simpl. rewrite IH. lia.
Qed.

(** X17.  Answering a query runs the completion only after the results
    have been printed without an exception: when the result iterator
    raises, the completion client is not consulted and nothing more is
    printed; when the completion client raises, the printed results stay
    and the exception leaves the cell; otherwise exactly one more line,
    the completion, follows the results. *)
Theorem answer_output {Float : Type} (float_str : Float → string)
    (search : Query.SearchRequest → list (Query.SearchResult Float) * option pyexn)
    (create : Query.CompletionRequest → pyexn + string)
    (user_query : string) (out : list string) :
  Query.answer float_str search create user_query out
  = match (search (Query.search_request user_query)).2 with
    | Some e => Query.query_cell float_str search user_query out
    | None =>
        match create (Query.completion_request user_query) with
        | inl e => (inl e, (Query.query_cell float_str search user_query out).2)
        | inr completion =>
            (inr tt,
             (Query.query_cell float_str search user_query out).2 ++ [ completion ])
        end
    end.
Proof.
  unfold Query.answer, mbind, cell_bind, Cell.bind.
  rewrite query_cell_run.
  destruct (search (Query.search_request user_query)).2; [done|].
  unfold Query.completion_cell. by destruct (create _).
Qed.
